(** * Verification of [modules/engine_binary.py]

    A shallow embedding of the training harness of the melanoma
    detection model: [train_step], [test_step] and [train].

    Modelling conventions.
    - The entries of tensors are idealised as exact rationals ([Q]).
      A Python [float] is a [pyfloat]: a finite value, idealised as an
      exact rational, or one of [nan], [-inf] and [inf], with the
      arithmetic and the comparisons of IEEE 754 on these.  The value
      of the loss is a [pyfloat]; the accuracy, a mean of quotients
      of counts, and the two scores of scikit-learn are finite, and
      become [pyfloat]s where [train] prints, stores and logs them.
      Python [int]s are [Z].
    - A batch is the list of its examples, each an input with its
      target: [X] is the list of the inputs, the 1-D tensor [y] the
      list of the targets, and the output of [model(X)], of shape
      (n, 1), the list of its n rows, one per example.
    - The model, the optimizer and the TensorBoard writer are mutable
      objects shared by the three routines: they live in one [world]
      that every routine threads through, together with what was
      printed.  Exceptions leave the world as it was when they were
      raised.  A method of the writer may raise: the writer's record
      holds the calls that returned.
    - The collaborators the file imports (the model's forward pass,
      autograd, the optimizer's update rule, the loss function, the
      two scikit-learn scores and the writer's failures) are variables
      of the section [Engine].
    - [X.to(device)], [.cpu()], [.detach()], [.numpy()] and the [tqdm]
      progress bar do not change any value and are left out. *)

From Stdlib Require Import QArith Qround Lqa ZArith List String.
From stdpp Require Import gmap strings list fin_maps.

Local Open Scope Q_scope.

(** ** Numbers *)

(** [x < y] on scalars, as a boolean. *)
Definition Qltb (x y : Q) : bool := negb (Qle_bool y x).

(** A Python [float]: [nan], [-inf], a finite value or [inf]. *)
Inductive pyfloat : Type :=
| NaN
| NegInf
| Fin (q : Q)
| PosInf.

Definition is_nan (x : pyfloat) : bool :=
  match x with
  | NaN => true
  | _ => false
  end.

(** [x < y] on floats: False as soon as one of them is [nan]. *)
Definition float_lt (x y : pyfloat) : bool :=
  match x, y with
  | NaN, _ => false
  | _, NaN => false
  | NegInf, NegInf => false
  | NegInf, _ => true
  | Fin _, NegInf => false
  | Fin a, Fin b => Qltb a b
  | Fin _, PosInf => true
  | PosInf, _ => false
  end.

(** [x <= y] on floats. *)
Definition float_le (x y : pyfloat) : bool :=
  match x, y with
  | NaN, _ => false
  | _, NaN => false
  | NegInf, _ => true
  | Fin _, NegInf => false
  | Fin a, Fin b => Qle_bool a b
  | Fin _, PosInf => true
  | PosInf, PosInf => true
  | PosInf, _ => false
  end.

(** [x + y] on floats. *)
Definition float_add (x y : pyfloat) : pyfloat :=
  match x, y with
  | NaN, _ => NaN
  | _, NaN => NaN
  | PosInf, NegInf => NaN
  | NegInf, PosInf => NaN
  | PosInf, _ => PosInf
  | _, PosInf => PosInf
  | NegInf, _ => NegInf
  | _, NegInf => NegInf
  | Fin a, Fin b => Fin (a + b)
  end.

(** [x / n] for a float [x] and an [int] [n] other than 0. *)
Definition float_div_int (x : pyfloat) (n : Z) : pyfloat :=
  match x with
  | NaN => NaN
  | NegInf => if (0 <? n)%Z then NegInf else PosInf
  | Fin a => Fin (a / inject_Z n)
  | PosInf => if (0 <? n)%Z then PosInf else NegInf
  end.

(** The same float: finite values are equal as rationals. *)
Definition float_eq (x y : pyfloat) : Prop :=
  match x, y with
  | NaN, NaN => True
  | NegInf, NegInf => True
  | Fin a, Fin b => a == b
  | PosInf, PosInf => True
  | _, _ => False
  end.

(** Sum of a list of floats. *)
Definition float_sum (l : list pyfloat) : pyfloat :=
  fold_right float_add (Fin 0) l.

(** [torch.round]: to the nearest integer, halves to the even one. *)
Definition torch_round (q : Q) : Q :=
  let f := Qfloor q in
  let r := q - inject_Z f in
  if Qltb r (1 # 2) then inject_Z f
  else if Qltb (1 # 2) r then inject_Z (f + 1)
  else if Z.even f then inject_Z f
  else inject_Z (f + 1).

(** Sum of a list of scalars. *)
Definition Qsum (l : list Q) : Q := fold_right Qplus 0 l.

(** ** Exceptions *)

Inductive exn : Type :=
| ZeroDivisionError
| ValueError        (* raised by scikit-learn *)
| KeyError
| OtherError (name : string).   (* any other exception, by its class *)

(** [a / b] on Python numbers where [b] is an [int]. *)
Definition py_div (a : Q) (b : Z) : exn + Q :=
  if (b =? 0)%Z then inl ZeroDivisionError else inr (a / inject_Z b).

(** [a / b] where [a] is a [float] and [b] an [int]. *)
Definition py_div_float (a : pyfloat) (b : Z) : exn + pyfloat :=
  if (b =? 0)%Z then inl ZeroDivisionError else inr (float_div_int a b).

(** [(a == b).sum().item()] for [a] and [b] of shape (n, 1). *)
Definition eq_count (a b : list Q) : nat :=
  List.length (List.filter (fun p => Qeq_bool (fst p) (snd p)) (combine a b)).

(** ** scikit-learn's weighted recall and F1

    Modelled from the spec: [recall_score] and [f1_score] with
    [average='weighted'] belong to scikit-learn, which is not part of
    the repository.  The glossary defines them as the per-class scores
    averaged with each class's support as weight; an undefined
    quotient counts as 0, as scikit-learn's default [zero_division]
    does. *)
Module Sklearn.

(** The distinct labels of a sequence. *)
Fixpoint unique_labels (l : list Q) : list Q :=
  match l with
  | [] => []
  | x :: l' =>
      if existsb (Qeq_bool x) (unique_labels l') then unique_labels l'
      else x :: unique_labels l'
  end.

Definition count (c : Q) (l : list Q) : Z :=
  Z.of_nat (List.length (List.filter (Qeq_bool c) l)).

(** Examples of class [c] that were predicted as [c]. *)
Definition true_pos (c : Q) (y_true y_pred : list Q) : Z :=
  Z.of_nat (List.length
              (List.filter (fun p => Qeq_bool c (fst p) && Qeq_bool c (snd p))
                           (combine y_true y_pred))).

(** [n / d], and 0 when [d] is 0. *)
Definition ratio (n d : Q) : Q :=
  if Qeq_bool d 0 then 0 else n / d.

Definition class_recall (y_true y_pred : list Q) (c : Q) : Q :=
  ratio (inject_Z (true_pos c y_true y_pred)) (inject_Z (count c y_true)).

Definition class_precision (y_true y_pred : list Q) (c : Q) : Q :=
  ratio (inject_Z (true_pos c y_true y_pred)) (inject_Z (count c y_pred)).

Definition class_f1 (y_true y_pred : list Q) (c : Q) : Q :=
  let p := class_precision y_true y_pred c in
  let r := class_recall y_true y_pred c in
  ratio (2 * (p * r)) (p + r).

(** Average of [score] over the classes, weighted by support. *)
Definition weighted (score : Q -> Q) (y_true y_pred : list Q) : Q :=
  let labels := unique_labels (y_true ++ y_pred) in
  let support c := inject_Z (count c y_true) in
  ratio (Qsum (List.map (fun c => support c * score c) labels))
        (Qsum (List.map support labels)).

Definition recall_score (y_true y_pred : list Q) : exn + Q :=
  if (List.length y_true =? List.length y_pred)%nat
  then inr (weighted (class_recall y_true y_pred) y_true y_pred)
  else inl ValueError.

Definition f1_score (y_true y_pred : list Q) : exn + Q :=
  if (List.length y_true =? List.length y_pred)%nat
  then inr (weighted (class_f1 y_true y_pred) y_true y_pred)
  else inl ValueError.

End Sklearn.

(** ** The words of the specification *)

(** The four values a step returns: (loss, acc, recall, f1).  The
    loss is the float the loss function gave; the other three are
    finite. *)
Definition metrics : Type := (pyfloat * Q * Q * Q)%type.

(** The same four values as the floats that [train] prints, stores
    and logs. *)
Definition floats : Type := (pyfloat * pyfloat * pyfloat * pyfloat)%type.

Definition m_loss {A B C D : Type} (m : A * B * C * D) : A :=
  fst (fst (fst m)).
Definition m_acc {A B C D : Type} (m : A * B * C * D) : B :=
  snd (fst (fst m)).
Definition m_recall {A B C D : Type} (m : A * B * C * D) : C :=
  snd (fst m).
Definition m_f1 {A B C D : Type} (m : A * B * C * D) : D := snd m.

Definition as_floats (m : metrics) : floats :=
  (m_loss m, Fin (m_acc m), Fin (m_recall m), Fin (m_f1 m)).

Definition zeros : floats := (Fin 0, Fin 0, Fin 0, Fin 0).

(** Arithmetic mean of a sequence. *)
Definition mean (l : list Q) : Q :=
  Qsum l / inject_Z (Z.of_nat (List.length l)).

Definition float_mean (l : list pyfloat) : pyfloat :=
  float_div_int (float_sum l) (Z.of_nat (List.length l)).

(** The examples of a batch whose rounded prediction equals the
    target. *)
Definition correct_examples (y_pred y : list Q) : nat :=
  List.length
    (List.filter (fun py => Qeq_bool (torch_round (fst py)) (snd py))
                 (combine y_pred y)).

(** The accuracy of one batch: the fraction of its examples whose
    rounded prediction equals the target. *)
Definition batch_accuracy (y_pred y : list Q) : Q :=
  inject_Z (Z.of_nat (correct_examples y_pred y))
  / inject_Z (Z.of_nat (List.length y)).

(** [x] is below every loss of [L] that is a number, and below
    [float('inf')]: a loss that is [nan] is below nothing, and nothing
    is below it. *)
Definition below (x : pyfloat) (L : list pyfloat) : bool :=
  forallb (fun y => is_nan y || float_lt x y) (PosInf :: L).

(** Epoch [i] (from 0) of the evaluation losses [L] is a strict
    improvement when its loss is below [float('inf')] and every
    earlier loss. *)
Definition improves (L : list pyfloat) (i : nat) : bool :=
  below (nth i L NaN) (firstn i L).

(** The largest [k <= n] with [f (k - 1)], and 0 when there is none. *)
Fixpoint last_true (f : nat -> bool) (n : nat) : nat :=
  match n with
  | O => O
  | S k => if f k then S k else last_true f k
  end.

(** The number (from 1) of the epoch of the last strict improvement. *)
Definition last_improvement (L : list pyfloat) : nat :=
  last_true (improves L) (List.length L).

(** The completed epochs since the last strict improvement. *)
Definition stale (L : list pyfloat) : nat :=
  (List.length L - last_improvement L)%nat.

(** The early-stopping rule, in the words of the specification. *)
Definition rule (state : pyfloat * Z) (eval_loss : pyfloat) : pyfloat * Z :=
  if float_lt eval_loss (fst state) then (eval_loss, 0%Z)
  else (fst state, (snd state + 1)%Z).

(** The series of a key of [results], and the metrics of epoch [i]. *)
Definition series (r : gmap string (list pyfloat)) (key : string)
  : list pyfloat :=
  default [] (r !! key).

Definition train_metrics (r : gmap string (list pyfloat)) (i : nat) : floats :=
  (nth i (series r "train_loss") (Fin 0), nth i (series r "train_acc") (Fin 0),
   nth i (series r "train_recall") (Fin 0),
   nth i (series r "train_f1") (Fin 0)).

Definition test_metrics (r : gmap string (list pyfloat)) (i : nat) : floats :=
  (nth i (series r "test_loss") (Fin 0), nth i (series r "test_acc") (Fin 0),
   nth i (series r "test_recall") (Fin 0),
   nth i (series r "test_f1") (Fin 0)).

(** The dictionary that holds the metrics of the epochs [h]. *)
Definition results_of (h : list (floats * floats))
  : gmap string (list pyfloat) :=
  list_to_map
    [("train_loss", List.map (fun e => m_loss (fst e)) h);
     ("train_acc", List.map (fun e => m_acc (fst e)) h);
     ("train_recall", List.map (fun e => m_recall (fst e)) h);
     ("train_f1", List.map (fun e => m_f1 (fst e)) h);
     ("test_loss", List.map (fun e => m_loss (snd e)) h);
     ("test_acc", List.map (fun e => m_acc (snd e)) h);
     ("test_recall", List.map (fun e => m_recall (snd e)) h);
     ("test_f1", List.map (fun e => m_f1 (snd e)) h)]%string.

(** The eight keys of [results]. *)
Definition result_keys : gset string :=
  {[ "train_loss"; "train_acc"; "train_recall"; "train_f1";
     "test_loss"; "test_acc"; "test_recall"; "test_f1" ]}%string.

(** The evaluation losses of the epochs [h]. *)
Definition eval_losses (h : list (floats * floats)) : list pyfloat :=
  List.map (fun e => m_loss (snd e)) h.

(** Patience is exhausted at the end of the evaluation losses [L]:
    an epoch has run and the stale epochs are at least [patience]. *)
Definition exhausted (patience : Z) (L : list pyfloat) : bool :=
  (0 <? List.length L)%nat && (patience <=? Z.of_nat (stale L))%Z.

(** The metrics of epoch [i] in [results]: train, then test. *)
Definition epoch_of (r : gmap string (list pyfloat)) (i : nat)
  : floats * floats :=
  (train_metrics r i, test_metrics r i).

(** ** A scripted model

    Collaborators small enough to run: an input is a scalar, the only
    parameter counts the optimizer's updates, the model adds
    [script[params]] to every input, and the loss is the first
    prediction. *)
Module Scripted.

Definition predict (script : list Q) (p : nat) (b : unit) (t : bool)
           (X : list Q) (x : Q) : Q :=
  nth p script 0 + x.

Definition update_buffers (p : nat) (b : unit) (t : bool) (X : list Q)
  : unit := b.

Definition loss_fn (y_pred y : list Q) : pyfloat := Fin (hd 0 y_pred).

Definition backward (p : nat) (b : unit) (X : list Q) (y : list Q)
           (g : unit) : unit := g.

Definition opt_step (o : unit) (p : nat) (g : unit) : unit * nat :=
  (tt, S p).

End Scripted.

(** ** The engine *)

Section Engine.

(** *** Collaborators *)

(** The input of one example, the model's parameters and buffers
    (running statistics and the like), the gradients stored on the
    parameters and the optimizer's own state. *)
Context {Input Params Buffers Grad OptState : Type}.

(** [model(X)] reads the parameters and the train/eval mode and may
    update the buffers; its output has one row per input of the
    batch: [predict p b t X x] is the row of the input [x] of [X]. *)
Variable predict : Params -> Buffers -> bool -> list Input -> Input -> Q.
Variable update_buffers : Params -> Buffers -> bool -> list Input -> Buffers.

Definition forward (p : Params) (b : Buffers) (t : bool) (X : list Input)
  : Buffers * list Q :=
  (update_buffers p b t X, List.map (predict p b t X) X).

(** [loss_fn(y_pred, y.unsqueeze(1)).item()]. *)
Variable loss_fn : list Q -> list Q -> pyfloat.

(** [loss.backward()]: the gradients after accumulating those of the
    loss on this batch into the stored ones. *)
Variable backward :
  Params -> Buffers -> list Input -> list Q -> Grad -> Grad.

(** What [optimizer.zero_grad()] leaves on the parameters. *)
Variable grad_zero : Grad.

(** [optimizer.step()]. *)
Variable opt_step : OptState -> Params -> Grad -> OptState * Params.

(** [recall_score(.., average='weighted')] and
    [f1_score(.., average='weighted')], on (y_true, y_pred). *)
Variable recall_score : list Q -> list Q -> exn + Q.
Variable f1_score : list Q -> list Q -> exn + Q.

(** *** The world *)

(** What the writer receives. *)
Inductive sink_event : Type :=
| AddScalars (main_tag : string)
             (tag_scalar_dict : list (string * pyfloat)) (global_step : Z)
| AddGraph (input_to_model : list Input)
| Close.

(** What [print] writes: the line of an epoch (with [epoch + 1] and
    the train and test metrics) and the early-stopping message. *)
Inductive out_event : Type :=
| EpochLine (number : Z) (train_m test_m : floats)
| EarlyStopLine (number : Z).

(** The exception a method of the writer raises, if it does, on the
    call [e] after the calls [calls] returned. *)
Variable writer_raises : list sink_event -> sink_event -> option exn.

Record world : Type := mkWorld {
  params : Params;
  buffers : Buffers;
  training : bool;
  grads : Grad;
  opt_state : OptState;
  sink : list sink_event;
  stdout : list out_event
}.

(** *** Computations: state and exceptions *)

Definition M (A : Type) : Type := world -> world * (exn + A).

Definition ret {A} (a : A) : M A := fun w => (w, inr a).

Definition bind {A B} (m : M A) (k : A -> M B) : M B :=
  fun w =>
    match m w with
    | (w', inr a) => k a w'
    | (w', inl e) => (w', inl e)
    end.

Definition lift {A} (r : exn + A) : M A := fun w => (w, r).

Definition modify (f : world -> world) : M unit := fun w => (f w, inr tt).

Notation "x <- m ;; k" := (bind m (fun x => k))
  (at level 100, m at next level, right associativity).
Notation "m ;;; k" := (bind m (fun _ => k))
  (at level 100, right associativity).

(** *** Operations on the shared objects *)

(** [model.train()] and [model.eval()]. *)
Definition set_mode (t : bool) : M unit :=
  modify (fun w => mkWorld (params w) (buffers w) t (grads w)
                           (opt_state w) (sink w) (stdout w)).

(** [model(X)]. *)
Definition model_call (X : list Input) : M (list Q) :=
  fun w =>
    let '(b, y_pred) := forward (params w) (buffers w) (training w) X in
    (mkWorld (params w) b (training w) (grads w)
             (opt_state w) (sink w) (stdout w), inr y_pred).

(** [optimizer.zero_grad()]. *)
Definition optimizer_zero_grad : M unit :=
  modify (fun w => mkWorld (params w) (buffers w) (training w) grad_zero
                           (opt_state w) (sink w) (stdout w)).

(** [loss.backward()] for the loss of the batch [(X, y)]; the graph
    was recorded by the forward pass, on the buffers [b0] it saw. *)
Definition loss_backward (b0 : Buffers) (X : list Input) (y : list Q)
  : M unit :=
  modify (fun w => mkWorld (params w) (buffers w) (training w)
                           (backward (params w) b0 X y (grads w))
                           (opt_state w) (sink w) (stdout w)).

(** [optimizer.step()]. *)
Definition optimizer_step : M unit :=
  modify (fun w =>
            let '(o, p) := opt_step (opt_state w) (params w) (grads w) in
            mkWorld p (buffers w) (training w) (grads w)
                    o (sink w) (stdout w)).

Definition get_buffers : M Buffers := fun w => (w, inr (buffers w)).

(** A call of a method of the writer. *)
Definition emit (e : sink_event) : M unit :=
  fun w =>
    match writer_raises (sink w) e with
    | Some x => (w, inl x)
    | None =>
        (mkWorld (params w) (buffers w) (training w) (grads w)
                 (opt_state w) (sink w ++ [e]) (stdout w), inr tt)
    end.

(** [print]. *)
Definition print (e : out_event) : M unit :=
  modify (fun w => mkWorld (params w) (buffers w) (training w) (grads w)
                           (opt_state w) (sink w) (stdout w ++ [e])).

(** *** [train_step] and [test_step] *)

(** A batch, with its [X] and [y], and a dataloader: the batches of
    one pass. *)
Definition batch : Type := list (Input * Q).
Definition inputs (b : batch) : list Input := List.map fst b.
Definition targets (b : batch) : list Q := List.map snd b.
Definition dataloader : Type := list batch.

(** The locals a step updates in its loop. *)
Record accum : Type := mkAccum {
  sum_loss : pyfloat;
  sum_acc : Q;
  all_preds : list Q;
  all_targets : list Q
}.

(** [train_loss, train_acc = 0, 0; all_preds = []; all_targets = []] *)
Definition accum0 : accum := mkAccum (Fin 0) 0 [] [].

(** The body of the [for] of [train_step]. *)
Definition train_batch (a : accum) (b : batch) : M accum :=
  let X := inputs b in
  let y := targets b in
  b0 <- get_buffers ;;
  y_pred <- model_call X ;;
  let loss := loss_fn y_pred y in
  let train_loss := float_add (sum_loss a) loss in
  optimizer_zero_grad ;;;
  loss_backward b0 X y ;;;
  optimizer_step ;;;
  let y_pred_class := List.map torch_round y_pred in
  let correct := Z.of_nat (eq_count y_pred_class y) in
  batch_acc <- lift (py_div (inject_Z correct)
                            (Z.of_nat (List.length y_pred))) ;;
  ret (mkAccum train_loss (sum_acc a + batch_acc)
               (all_preds a ++ y_pred_class) (all_targets a ++ y)).

(** The body of the [for] of [test_step]. *)
Definition test_batch (a : accum) (b : batch) : M accum :=
  let X := inputs b in
  let y := targets b in
  test_pred_logits <- model_call X ;;
  let loss := loss_fn test_pred_logits y in
  let test_loss := float_add (sum_loss a) loss in
  let test_pred_labels := List.map torch_round test_pred_logits in
  let correct := Z.of_nat (eq_count test_pred_labels y) in
  batch_acc <- lift (py_div (inject_Z correct)
                            (Z.of_nat (List.length test_pred_labels))) ;;
  ret (mkAccum test_loss (sum_acc a + batch_acc)
               (all_preds a ++ test_pred_labels) (all_targets a ++ y)).

(** [for batch, (X, y) in enumerate(dataloader): body] *)
Fixpoint for_batches (body : accum -> batch -> M accum)
         (dl : dataloader) (a : accum) : M accum :=
  match dl with
  | [] => ret a
  | b :: dl' => a' <- body a b ;; for_batches body dl' a'
  end.

(** What follows the [for] in both steps. *)
Definition finish (dl : dataloader) (a : accum) : M metrics :=
  recall <- lift (recall_score (all_targets a) (all_preds a)) ;;
  f1 <- lift (f1_score (all_targets a) (all_preds a)) ;;
  loss <- lift (py_div_float (sum_loss a) (Z.of_nat (List.length dl))) ;;
  acc <- lift (py_div (sum_acc a) (Z.of_nat (List.length dl))) ;;
  ret (loss, acc, recall, f1).

Definition train_step (dl : dataloader) : M metrics :=
  set_mode true ;;;
  a <- for_batches train_batch dl accum0 ;;
  finish dl a.

Definition test_step (dl : dataloader) : M metrics :=
  set_mode false ;;;
  a <- for_batches test_batch dl accum0 ;;
  finish dl a.

(** *** [train] *)

(** The locals of [train] that outlive an epoch. *)
Record loop_state : Type := mkLoop {
  results : gmap string (list pyfloat);
  best_loss : pyfloat;
  patience_counter : Z
}.

(** The dictionary [results] before the first epoch. *)
Definition results0 : gmap string (list pyfloat) :=
  list_to_map [("train_loss", []); ("train_acc", []);
               ("train_recall", []); ("train_f1", []);
               ("test_loss", []); ("test_acc", []);
               ("test_recall", []); ("test_f1", [])]%string.

(** [results[key].append(x)] *)
Definition append (key : string) (x : pyfloat)
           (r : gmap string (list pyfloat))
  : M (gmap string (list pyfloat)) :=
  match r !! key with
  | Some l => ret (<[key := l ++ [x]]> r)
  | None => lift (inl KeyError)
  end.

(** The eight appends of an epoch. *)
Definition append_all (train_m test_m : floats)
           (r : gmap string (list pyfloat))
  : M (gmap string (list pyfloat)) :=
  let '(train_loss, train_acc, train_recall, train_f1) := train_m in
  let '(test_loss, test_acc, test_recall, test_f1) := test_m in
  r <- append "train_loss" train_loss r ;;
  r <- append "train_acc" train_acc r ;;
  r <- append "train_recall" train_recall r ;;
  r <- append "train_f1" train_f1 r ;;
  r <- append "test_loss" test_loss r ;;
  r <- append "test_acc" test_acc r ;;
  r <- append "test_recall" test_recall r ;;
  append "test_f1" test_f1 r.

(** The early-stopping update of [best_loss] and [patience_counter]. *)
Definition early_stopping (test_loss best : pyfloat) (counter : Z)
  : pyfloat * Z :=
  if float_lt test_loss best then (test_loss, 0%Z)
  else (best, (counter + 1)%Z).

(** What the writer receives in an epoch that reaches the logging. *)
Definition log_events (epoch : Z) (example_input : list Input)
           (train_m test_m : floats) : list sink_event :=
  let '(train_loss, train_acc, train_recall, train_f1) := train_m in
  let '(test_loss, test_acc, test_recall, test_f1) := test_m in
  [AddScalars "Loss"
              [("train_loss", train_loss); ("test_loss", test_loss)] epoch;
   AddScalars "Accuracy"
              [("train_acc", train_acc); ("test_acc", test_acc)] epoch;
   AddScalars "Recall"
              [("train_recall", train_recall); ("test_recall", test_recall)]
              epoch;
   AddScalars "F1-Score"
              [("train_f1", train_f1); ("test_f1", test_f1)] epoch;
   AddGraph example_input;
   Close]%string.

Fixpoint emit_all (es : list sink_event) : M unit :=
  match es with
  | [] => ret tt
  | e :: es' => emit e ;;; emit_all es'
  end.

(** [if writer and example_input is not None: ...]; [writer] is
    [true] when a writer object was passed, which is always truthy. *)
Definition logging (writer : bool) (example_input : option (list Input))
           (epoch : Z) (train_m test_m : floats) : M unit :=
  match writer, example_input with
  | true, Some x => emit_all (log_events epoch x train_m test_m)
  | _, _ => ret tt
  end.

Inductive control : Type := Continue | Break.

Section Train.

Variables (train_dataloader test_dataloader : dataloader).
Variable (writer : bool).
Variable (example_input : option (list Input)).
Variable (patience : Z).

(** The body of the [for] of [train]; the four values each step
    returned are the floats [train_m] and [test_m]. *)
Definition epoch_body (epoch : Z) (s : loop_state)
  : M (control * loop_state) :=
  train_returned <- train_step train_dataloader ;;
  test_returned <- test_step test_dataloader ;;
  let train_m := as_floats train_returned in
  let test_m := as_floats test_returned in
  print (EpochLine (epoch + 1) train_m test_m) ;;;
  r <- append_all train_m test_m (results s) ;;
  let test_loss := m_loss test_m in
  let '(best, counter) :=
    early_stopping test_loss (best_loss s) (patience_counter s) in
  let s' := mkLoop r best counter in
  if (patience <=? counter)%Z then
    print (EarlyStopLine (epoch + 1)) ;;;
    ret (Break, s')
  else
    logging writer example_input epoch train_m test_m ;;;
    ret (Continue, s').

(** [for epoch in epochs: body] with its [break]. *)
Fixpoint for_epochs (epochs : list Z) (s : loop_state) : M loop_state :=
  match epochs with
  | [] => ret s
  | epoch :: rest =>
      cs <- epoch_body epoch s ;;
      match fst cs with
      | Break => ret (snd cs)
      | Continue => for_epochs rest (snd cs)
      end
  end.

End Train.

(** [range(n)] *)
Definition py_range (n : Z) : list Z :=
  List.map Z.of_nat (seq 0 (Z.to_nat n)).

Definition loop_state0 : loop_state := mkLoop results0 PosInf 0.

Definition train (train_dataloader test_dataloader : dataloader)
           (epochs : Z) (writer : bool) (example_input : option (list Input))
           (patience : Z) : M (gmap string (list pyfloat)) :=
  s <- for_epochs train_dataloader test_dataloader writer example_input
                  patience (py_range epochs) loop_state0 ;;
  ret (results s).

(** *** What a run leaves behind *)

(** What was printed, and what the writer received, between the
    worlds [w] and [w']. *)
Definition printed (w w' : world) : list out_event :=
  drop (List.length (stdout w)) (stdout w').

Definition emitted (w w' : world) : list sink_event :=
  drop (List.length (sink w)) (sink w').

Definition is_epoch_line (e : out_event) : bool :=
  match e with
  | EpochLine _ _ _ => true
  | EarlyStopLine _ => false
  end.

(** The epochs executed between [w] and [w']: one line each. *)
Definition epochs_run (w w' : world) : nat :=
  List.length (List.filter is_epoch_line (printed w w')).

(** The early-stopping message was printed between [w] and [w']. *)
Definition early_stopped (w w' : world) : bool :=
  existsb (fun e => negb (is_epoch_line e)) (printed w w').

(** The epochs between [w] and [w'] that reached the logging: all
    but the one that stopped the loop. *)
Definition epochs_logged (w w' : world) : nat :=
  if early_stopped w w' then (epochs_run w w' - 1)%nat
  else epochs_run w w'.

(** The predictions and targets of the batches of a pass that runs
    [body] over [dl]. *)
Fixpoint pass_trace (body : accum -> batch -> M accum) (dl : dataloader)
         (a : accum) (w : world) : list (list Q * list Q) :=
  match dl with
  | [] => []
  | b :: dl' =>
      (snd (forward (params w) (buffers w) (training w) (inputs b)),
       targets b) ::
      match body a b w with
      | (w', inr a') => pass_trace body dl' a' w'
      | (_, inl _) => []
      end
  end.

(** The world in which the loop of a step starts. *)
Definition in_mode (t : bool) (w : world) : world :=
  mkWorld (params w) (buffers w) t (grads w) (opt_state w)
          (sink w) (stdout w).

Definition train_trace (dl : dataloader) (w : world)
  : list (list Q * list Q) :=
  pass_trace train_batch dl accum0 (in_mode true w).

Definition test_trace (dl : dataloader) (w : world)
  : list (list Q * list Q) :=
  pass_trace test_batch dl accum0 (in_mode false w).

(** The lines and the writer's records of the epochs [h], the first
    of which has index [a]. *)
Fixpoint epoch_lines (a : nat) (h : list (floats * floats))
  : list out_event :=
  match h with
  | [] => []
  | e :: h' => EpochLine (Z.of_nat a + 1) (fst e) (snd e)
               :: epoch_lines (S a) h'
  end.

Definition epoch_log (writer : bool) (example_input : option (list Input))
           (a : nat) (e : floats * floats) : list sink_event :=
  match writer, example_input with
  | true, Some x => log_events (Z.of_nat a) x (fst e) (snd e)
  | _, _ => []
  end.

Fixpoint epoch_logs (writer : bool) (example_input : option (list Input))
         (a : nat) (h : list (floats * floats)) : list sink_event :=
  match h with
  | [] => []
  | e :: h' => epoch_log writer example_input a e
               ++ epoch_logs writer example_input (S a) h'
  end.

(** *** Notions for the proofs *)

(** [w'] differs from [w] at most in the buffers and the mode. *)
Definition same_parameters (w w' : world) : Prop :=
  params w' = params w /\ grads w' = grads w /\
  opt_state w' = opt_state w /\
  sink w' = sink w /\ stdout w' = stdout w.

(** [w'] has the output of [w]. *)
Definition same_output (w w' : world) : Prop :=
  sink w' = sink w /\ stdout w' = stdout w.

(** What one run of a loop body adds to the locals. *)
Definition adds_batch (body : accum -> batch -> M accum) : Prop :=
  forall a b w w1 a1,
    body a b w = (w1, inr a1) ->
    let p := snd (forward (params w) (buffers w) (training w) (inputs b)) in
    let y := targets b in
    sum_loss a1 = float_add (sum_loss a) (loss_fn p y) /\
    sum_acc a1 = sum_acc a + batch_accuracy p y /\
    all_preds a1 = all_preds a ++ List.map torch_round p /\
    all_targets a1 = all_targets a ++ y.

(** The loss and the accuracy of a batch of a trace. *)
Definition trace_loss (py : list Q * list Q) : pyfloat :=
  loss_fn (fst py) (snd py).

Definition trace_accuracy (py : list Q * list Q) : Q :=
  batch_accuracy (fst py) (snd py).

(** The two steps under one name. *)
Inductive step : Type := TrainStep | EvalStep.

Definition run_step (s : step) (dl : dataloader) : M metrics :=
  match s with
  | TrainStep => train_step dl
  | EvalStep => test_step dl
  end.

Definition step_trace (s : step) (dl : dataloader) (w : world)
  : list (list Q * list Q) :=
  match s with
  | TrainStep => train_trace dl w
  | EvalStep => test_trace dl w
  end.

(** The locals of [train] after the epochs [h]. *)
Definition state_of (h : list (floats * floats)) (s : loop_state) : Prop :=
  results s = results_of h /\
  (best_loss s, patience_counter s)
  = fold_left rule (eval_losses h) (PosInf, 0%Z).


(** *** Notions for the further properties *)


(** What the evaluation reads of the model: its parameters and its
    buffers. *)
Definition same_model (w1 w2 : world) : Prop :=
  params w1 = params w2 /\ buffers w1 = buffers w2.

(** The rounded predictions and the targets of a pass, batch after
    batch: what [all_preds] and [all_targets] hold after the loop. *)
Definition epoch_preds (T : list (list Q * list Q)) : list Q :=
  List.flat_map (fun py => List.map torch_round (fst py)) T.

Definition epoch_targets (T : list (list Q * list Q)) : list Q :=
  List.flat_map snd T.

(** The examples of a pass, and those classified right. *)
Definition total_examples (T : list (list Q * list Q)) : nat :=
  list_sum (List.map (fun py => List.length (snd py)) T).


Definition is_close (e : sink_event) : bool :=
  match e with
  | Close => true
  | _ => false
  end.

(** A writer and an example input were both passed. *)
Definition logs (writer : bool) (example_input : option (list Input))
  : bool :=
  match writer, example_input with
  | true, Some _ => true
  | _, _ => false
  end.

(** [train_step] on [tdl] from the world [wk], or [test_step] on
    [edl] after it, raised [e] and left the world [w']. *)
Definition step_failed (tdl edl : dataloader) (wk w' : world) (e : exn)
  : Prop :=
  train_step tdl wk = (w', inl e) \/
  exists w1 tm, train_step tdl wk = (w1, inr tm) /\
                test_step edl w1 = (w', inl e).

(** A method of the writer raised [e] after the calls recorded in
    [w']. *)
Definition writer_failed (w' : world) (e : exn) : Prop :=
  exists ev, writer_raises (sink w') ev = Some e.

(** The body of a step on one batch: it raises exactly on an empty
    batch, and then the division by [len(y_pred)]. *)
Definition divides_by_batch_size (body : accum -> batch -> M accum) : Prop :=
  forall a b w,
    match snd (body a b w) with
    | inl e => b = [] /\ e = ZeroDivisionError
    | inr _ => b <> []
    end.



(** *** Running a computation *)

Lemma bind_inr {A B} (m : M A) (k : A -> M B) w w' b :
  bind m k w = (w', inr b) ->
  exists w1 a, m w = (w1, inr a) /\ k a w1 = (w', inr b).
Proof.
  unfold bind. destruct (m w) as [w1 [e | a]]; intros H.
  - discriminate.
  - eauto.
Qed.

Lemma lift_inr {A} (r : exn + A) w w' a :
  lift r w = (w', inr a) -> w' = w /\ r = inr a.
Proof. unfold lift. intros H. inversion H. auto. Qed.

Lemma ret_inr {A} (x : A) w w' a :
  ret x w = (w', inr a) -> w' = w /\ a = x.
Proof. unfold ret. intros H. inversion H. auto. Qed.

(** *** What the steps leave alone *)

Lemma same_parameters_refl w : same_parameters w w.
Proof. repeat split. Qed.

Lemma same_parameters_trans w1 w2 w3 :
  same_parameters w1 w2 -> same_parameters w2 w3 -> same_parameters w1 w3.
Proof.
  unfold same_parameters. intros (?&?&?&?&?) (?&?&?&?&?).
  repeat split; congruence.
Qed.

Lemma same_output_refl w : same_output w w.
Proof. split; reflexivity. Qed.

Lemma same_output_trans w1 w2 w3 :
  same_output w1 w2 -> same_output w2 w3 -> same_output w1 w3.
Proof. unfold same_output. intros [? ?] [? ?]. split; congruence. Qed.

Lemma test_batch_same_parameters a b w :
  same_parameters w (fst (test_batch a b w)).
Proof.
  unfold test_batch, bind, model_call, forward, lift, ret.
  destruct (py_div _ _) as [e | q]; repeat split.
Qed.

Lemma train_batch_same_output a b w :
  same_output w (fst (train_batch a b w)).
Proof.
  unfold train_batch, bind, get_buffers, model_call, forward, lift, ret,
    optimizer_zero_grad, loss_backward, optimizer_step, modify.
  cbn [params buffers training grads opt_state sink stdout].
  destruct (opt_step _ _ _) as [o p'].
  destruct (py_div _ _) as [e | q]; split; reflexivity.
Qed.

Lemma for_batches_preserves (R : world -> world -> Prop) body :
  (forall w, R w w) ->
  (forall w1 w2 w3, R w1 w2 -> R w2 w3 -> R w1 w3) ->
  (forall a b w, R w (fst (body a b w))) ->
  forall dl a w, R w (fst (for_batches body dl a w)).
Proof.
  intros Hrefl Htrans Hbody dl.
  induction dl as [| b dl IH]; intros a w; cbn [for_batches].
  - apply Hrefl.
  - unfold bind. specialize (Hbody a b w).
    destruct (body a b w) as [w1 [e | a']]; cbn [fst] in *.
    + exact Hbody.
    + eapply Htrans; [exact Hbody | apply IH].
Qed.

Lemma finish_same_world dl a w : fst (finish dl a w) = w.
Proof.
  unfold finish, bind, lift, ret.
  destruct (recall_score _ _); [reflexivity |].
  destruct (f1_score _ _); [reflexivity |].
  destruct (py_div_float (sum_loss a) _); [reflexivity |].
  destruct (py_div (sum_acc a) _); reflexivity.
Qed.

Lemma test_step_same_parameters dl w :
  same_parameters w (fst (test_step dl w)).
Proof.
  unfold test_step, bind, set_mode, modify.
  pose proof (for_batches_preserves same_parameters test_batch
                same_parameters_refl same_parameters_trans
                test_batch_same_parameters dl accum0 (in_mode false w)) as H.
  fold (in_mode false w).
  destruct (for_batches test_batch dl accum0 (in_mode false w))
    as [w1 [e | a]]; cbn [fst] in *.
  - exact H.
  - rewrite finish_same_world. exact H.
Qed.

Lemma test_step_same_output dl w : same_output w (fst (test_step dl w)).
Proof.
  destruct (test_step_same_parameters dl w) as (_&_&_&?&?). split; assumption.
Qed.

Lemma train_step_same_output dl w : same_output w (fst (train_step dl w)).
Proof.
  unfold train_step, bind, set_mode, modify.
  pose proof (for_batches_preserves same_output train_batch
                same_output_refl same_output_trans
                train_batch_same_output dl accum0 (in_mode true w)) as H.
  fold (in_mode true w).
  destruct (for_batches train_batch dl accum0 (in_mode true w))
    as [w1 [e | a]]; cbn [fst] in *.
  - exact H.
  - rewrite finish_same_world. exact H.
Qed.

(** C4: whatever the outcome of [test_step], the parameters of the
    model, the gradients stored on them and the state of the
    optimizer are those of before the call. *)
Theorem test_step_never_mutates_parameters (dl : dataloader) (w : world) :
  params (fst (test_step dl w)) = params w /\
  grads (fst (test_step dl w)) = grads w /\
  opt_state (fst (test_step dl w)) = opt_state w.
Proof.
  destruct (test_step_same_parameters dl w) as (Hp & Hg & Ho & _).
  auto.
Qed.

(** C9: on a dataloader without batches neither step returns
    metrics; when the two scores return a value, the exception is
    the division by [len(dataloader)], which is 0. *)
Theorem steps_fail_on_empty_dataloader (w : world) :
  (exists e, snd (train_step [] w) = inl e) /\
  (exists e, snd (test_step [] w) = inl e) /\
  (forall r f, recall_score [] [] = inr r -> f1_score [] [] = inr f ->
     snd (train_step [] w) = inl ZeroDivisionError /\
     snd (test_step [] w) = inl ZeroDivisionError).
Proof.
  unfold train_step, test_step, bind, set_mode, modify, finish, lift, ret.
  cbn [for_batches accum0 all_targets all_preds sum_loss sum_acc ret
       List.length Z.of_nat py_div py_div_float Z.eqb].
  unfold ret.
  destruct (recall_score [] []) as [e1 | r];
    destruct (f1_score [] []) as [e2 | f]; cbn;
    repeat split; eauto; intros; congruence.
Qed.

(** *** Arithmetic on floats *)

Lemma float_eq_refl x : float_eq x x.
Proof. destruct x; cbn; auto. reflexivity. Qed.

Lemma float_eq_sym x y : float_eq x y -> float_eq y x.
Proof. destruct x, y; cbn; auto. intros H. symmetry. exact H. Qed.

Lemma float_eq_trans x y z : float_eq x y -> float_eq y z -> float_eq x z.
Proof.
  destruct x, y, z; cbn; auto; try tauto.
  intros H1 H2. rewrite H1. exact H2.
Qed.

Lemma float_add_assoc x y z :
  float_eq (float_add (float_add x y) z) (float_add x (float_add y z)).
Proof. destruct x, y, z; cbn; auto. ring. Qed.

Lemma float_add_0_l x : float_eq (float_add (Fin 0) x) x.
Proof. destruct x; cbn; auto. ring. Qed.

Lemma float_add_0_r x : float_eq (float_add x (Fin 0)) x.
Proof. destruct x; cbn; auto. ring. Qed.

Lemma float_div_int_compat x y n :
  float_eq x y -> float_eq (float_div_int x n) (float_div_int y n).
Proof.
  destruct x, y; cbn; auto; try tauto.
  - intros _. destruct (0 <? n)%Z; exact I.
  - intros H. rewrite H. reflexivity.
  - intros _. destruct (0 <? n)%Z; exact I.
Qed.

(** *** The sums a step accumulates *)

Lemma py_div_float_inr a b q :
  py_div_float a b = inr q -> b <> 0%Z /\ q = float_div_int a b.
Proof.
  unfold py_div_float. destruct (Z.eqb_spec b 0); intros H; inversion H.
  auto.
Qed.

Lemma py_div_inr a b q :
  py_div a b = inr q -> b <> 0%Z /\ q = a / inject_Z b.
Proof.
  unfold py_div. destruct (Z.eqb_spec b 0); intros H; inversion H. auto.
Qed.

Lemma eq_count_round p : forall y,
  eq_count (List.map torch_round p) y = correct_examples p y.
Proof.
  unfold eq_count, correct_examples.
  induction p as [| x p IH]; intros [| t y]; cbn; try reflexivity.
  destruct (Qeq_bool (torch_round x) t); cbn; rewrite IH; reflexivity.
Qed.

(** One prediction per example. *)
Lemma forward_length p b0 t (b : batch) :
  List.length (snd (forward p b0 t (inputs b))) = List.length (targets b).
Proof.
  unfold forward, inputs, targets. cbn [snd].
  rewrite !List.length_map. reflexivity.
Qed.

(** The accuracy the code computes for a batch is the fraction of
    its examples that are classified right. *)
Lemma code_batch_accuracy p b0 t (b : batch) :
  let y_pred := snd (forward p b0 t (inputs b)) in
  inject_Z (Z.of_nat (eq_count (List.map torch_round y_pred) (targets b)))
  / inject_Z (Z.of_nat (List.length y_pred))
  = batch_accuracy y_pred (targets b).
Proof.
  intros y_pred. unfold batch_accuracy. subst y_pred.
  rewrite eq_count_round, forward_length. reflexivity.
Qed.

Lemma train_batch_adds : adds_batch train_batch.
Proof.
  intros a b w w1 a1.
  pose proof (code_batch_accuracy (params w) (buffers w) (training w) b)
    as Hacc.
  unfold train_batch, bind, get_buffers, model_call, lift, ret,
    optimizer_zero_grad, loss_backward, optimizer_step, modify.
  destruct (forward (params w) (buffers w) (training w) (inputs b))
    as [b' p].
  cbn [params buffers training grads opt_state sink stdout snd] in *.
  destruct (opt_step _ _ _) as [o p'].
  destruct (py_div _ _) as [e | q] eqn:Hdiv; [discriminate |].
  apply py_div_inr in Hdiv as [_ ->]. rewrite Hacc.
  intros H. inversion H. subst. cbn. auto.
Qed.

Lemma test_batch_adds : adds_batch test_batch.
Proof.
  intros a b w w1 a1.
  pose proof (code_batch_accuracy (params w) (buffers w) (training w) b)
    as Hacc.
  unfold test_batch, bind, model_call, lift, ret.
  destruct (forward (params w) (buffers w) (training w) (inputs b))
    as [b' p].
  cbn [snd] in *.
  destruct (py_div _ _) as [e | q] eqn:Hdiv; [discriminate |].
  apply py_div_inr in Hdiv as [_ ->].
  rewrite List.length_map, Hacc.
  intros H. inversion H. subst. cbn. auto.
Qed.

Lemma pass_trace_shape body : forall dl a w,
  Forall (fun py => List.length (fst py) = List.length (snd py))
         (pass_trace body dl a w).
Proof.
  induction dl as [| b dl IH]; intros a w; cbn [pass_trace].
  - constructor.
  - constructor.
    + apply forward_length.
    + destruct (body a b w) as [w1 [e | a1]]; [constructor | apply IH].
Qed.

Lemma for_batches_sums body :
  adds_batch body ->
  forall dl a w w' a',
    for_batches body dl a w = (w', inr a') ->
    let T := pass_trace body dl a w in
    List.length T = List.length dl /\
    float_eq (sum_loss a')
             (float_add (sum_loss a) (float_sum (List.map trace_loss T))) /\
    sum_acc a' == sum_acc a + Qsum (List.map trace_accuracy T) /\
    all_preds a' =
      all_preds a ++ List.flat_map (fun py => List.map torch_round (fst py)) T /\
    all_targets a' = all_targets a ++ List.flat_map snd T.
Proof.
  intros Hbody dl.
  induction dl as [| b dl IH]; intros a w w' a' Hrun;
    cbn [for_batches pass_trace] in *.
  - apply ret_inr in Hrun as [_ ->]. cbn.
    rewrite !app_nil_r. repeat split; try reflexivity.
    + apply float_eq_sym, float_add_0_r.
    + ring.
  - apply bind_inr in Hrun as (w1 & a1 & Hb & Hrest).
    rewrite Hb. cbn zeta.
    destruct (Hbody _ _ _ _ _ Hb) as (Hl & Ha & Hp & Ht).
    destruct (IH _ _ _ _ Hrest) as (IHn & IHl & IHa & IHp & IHt).
    cbn [List.length List.map List.flat_map Qsum float_sum fold_right
         fst snd].
    fold (float_sum (List.map trace_loss (pass_trace body dl a1 w1))).
    fold (Qsum (List.map trace_accuracy (pass_trace body dl a1 w1))).
    unfold trace_loss at 1. unfold trace_accuracy at 1. cbn [fst snd].
    split; [congruence |]. split; [| split; [| split]].
    + rewrite Hl in IHl.
      eapply float_eq_trans; [exact IHl | apply float_add_assoc].
    + rewrite IHa, Ha. ring.
    + rewrite IHp, Hp. rewrite <- app_assoc. reflexivity.
    + rewrite IHt, Ht. rewrite <- app_assoc. reflexivity.
Qed.

Lemma finish_inr dl a w w' m :
  finish dl a w = (w', inr m) ->
  w' = w /\ dl <> [] /\
  recall_score (all_targets a) (all_preds a) = inr (m_recall m) /\
  f1_score (all_targets a) (all_preds a) = inr (m_f1 m) /\
  m_loss m = float_div_int (sum_loss a) (Z.of_nat (List.length dl)) /\
  m_acc m = sum_acc a / inject_Z (Z.of_nat (List.length dl)).
Proof.
  unfold finish, bind, lift, ret.
  destruct (recall_score _ _) as [e | r]; [discriminate |].
  destruct (f1_score _ _) as [e | f]; [discriminate |].
  destruct (py_div_float (sum_loss a) _) as [e | l] eqn:Hl; [discriminate |].
  destruct (py_div (sum_acc a) _) as [e | c] eqn:Hc; [discriminate |].
  apply py_div_float_inr in Hl as [Hn ->]. apply py_div_inr in Hc as [_ ->].
  intros H. inversion H. subst. cbn.
  repeat split; try reflexivity.
  intros ->. apply Hn. reflexivity.
Qed.

(** What a step that returns has computed. *)
Lemma step_inr body t dl w w' m :
  adds_batch body ->
  bind (set_mode t) (fun _ => bind (for_batches body dl accum0) (finish dl)) w
  = (w', inr m) ->
  let T := pass_trace body dl accum0 (in_mode t w) in
  exists a,
    for_batches body dl accum0 (in_mode t w) = (w', inr a) /\
    dl <> [] /\
    List.length T = List.length dl /\
    float_eq (m_loss m) (float_mean (List.map trace_loss T)) /\
    m_acc m == mean (List.map trace_accuracy T) /\
    all_preds a = List.flat_map (fun py => List.map torch_round (fst py)) T /\
    all_targets a = List.flat_map snd T /\
    recall_score (all_targets a) (all_preds a) = inr (m_recall m) /\
    f1_score (all_targets a) (all_preds a) = inr (m_f1 m).
Proof.
  intros Hbody Hrun.
  apply bind_inr in Hrun as (w1 & [] & Hmode & Hrun).
  unfold set_mode, modify in Hmode. inversion Hmode; subst w1; clear Hmode.
  fold (in_mode t w) in Hrun.
  apply bind_inr in Hrun as (w2 & a & Hloop & Hfin).
  apply finish_inr in Hfin as (-> & Hne & Hr & Hf & Hl & Ha).
  destruct (for_batches_sums body Hbody _ _ _ _ _ Hloop)
    as (Hn & Hsl & Hsa & Hp & Ht).
  cbn [accum0 sum_loss sum_acc all_preds all_targets app] in *.
  exists a. repeat split; try assumption.
  - rewrite Hl. unfold float_mean. rewrite List.length_map, Hn.
    apply float_div_int_compat.
    eapply float_eq_trans; [exact Hsl | apply float_add_0_l].
  - rewrite Ha. unfold mean. rewrite List.length_map, Hn, Hsa.
    rewrite Qplus_0_l. reflexivity.
Qed.

(** *** The early-stopping rule and strict improvements *)

Lemma Qltb_lt x y : Qltb x y = true <-> x < y.
Proof.
  unfold Qltb. rewrite negb_true_iff. split.
  - intros H. apply Qnot_le_lt. intros Hle.
    apply Qle_bool_iff in Hle. congruence.
  - intros H. destruct (Qle_bool y x) eqn:E; [| reflexivity].
    apply Qle_bool_iff in E. exfalso. exact (Qlt_not_le _ _ H E).
Qed.

Lemma Qltb_ge x y : Qltb x y = false <-> y <= x.
Proof.
  unfold Qltb. rewrite negb_false_iff. apply Qle_bool_iff.
Qed.

Lemma float_lt_not_nan x y : float_lt x y = true -> is_nan x = false.
Proof. destruct x, y; cbn; congruence. Qed.

Lemma float_lt_trans x y z :
  float_lt x y = true -> float_lt y z = true -> float_lt x z = true.
Proof.
  destruct x, y, z; cbn; try congruence.
  rewrite !Qltb_lt. apply Qlt_trans.
Qed.

Lemma float_lt_le_trans x y z :
  float_lt x y = true -> float_lt z y = false -> is_nan z = false ->
  float_lt x z = true.
Proof.
  destruct x, y, z; cbn; try congruence.
  rewrite !Qltb_lt, Qltb_ge. intros H1 H2 _.
  eapply Qlt_le_trans; eassumption.
Qed.

(** After the rule, a loss is below the best one exactly when it was
    below the former best one and is below the new loss, if that is
    a number. *)
Lemma float_lt_rule x st y :
  float_lt x (fst (rule st y))
  = float_lt x (fst st) && (is_nan y || float_lt x y).
Proof.
  destruct st as [b c]. unfold rule. cbn [fst snd].
  destruct (float_lt y b) eqn:E; cbn [fst].
  - rewrite (float_lt_not_nan _ _ E). cbn [orb].
    destruct (float_lt x y) eqn:Hxy.
    + rewrite andb_true_r. symmetry.
      eapply float_lt_trans; eassumption.
    + rewrite andb_false_r. reflexivity.
  - destruct (float_lt x b) eqn:Hxb; cbn [andb]; [| reflexivity].
    destruct (is_nan y) eqn:Hy; cbn [orb]; [reflexivity |].
    symmetry. eapply float_lt_le_trans; eassumption.
Qed.

Lemma fold_rule_snoc L y st :
  fold_left rule (L ++ [y]) st = rule (fold_left rule L st) y.
Proof. rewrite fold_left_app. reflexivity. Qed.

Lemma below_snoc x L y :
  below x (L ++ [y]) = below x L && (is_nan y || float_lt x y).
Proof.
  unfold below. cbn [forallb]. rewrite forallb_app. cbn [forallb].
  rewrite andb_true_r, andb_assoc. reflexivity.
Qed.

(** The best loss is the strict lower bound of [float('inf')] and
    the losses seen that are numbers. *)
Lemma fold_rule_below L x :
  float_lt x (fst (fold_left rule L (PosInf, 0%Z))) = below x L.
Proof.
  induction L as [| y L IH] using rev_ind.
  - unfold below. cbn. rewrite andb_true_r. reflexivity.
  - rewrite fold_rule_snoc, float_lt_rule, IH, below_snoc. reflexivity.
Qed.

Lemma improves_snoc_last L y :
  improves (L ++ [y]) (List.length L) = below y L.
Proof.
  unfold improves.
  rewrite app_nth2, Nat.sub_diag by apply Nat.le_refl. cbn [nth].
  rewrite firstn_app, Nat.sub_diag, firstn_all. cbn [firstn].
  rewrite app_nil_r. reflexivity.
Qed.

Lemma improves_snoc_before L y i :
  (i < List.length L)%nat -> improves (L ++ [y]) i = improves L i.
Proof.
  intros Hi. unfold improves.
  rewrite app_nth1 by exact Hi.
  rewrite firstn_app.
  replace (i - List.length L)%nat with 0%nat by lia.
  cbn [firstn]. rewrite app_nil_r. reflexivity.
Qed.

Lemma last_true_ext f g n :
  (forall i, (i < n)%nat -> f i = g i) -> last_true f n = last_true g n.
Proof.
  induction n as [| n IH]; intros H; cbn [last_true].
  - reflexivity.
  - rewrite (H n) by lia. rewrite IH; [reflexivity |].
    intros i Hi. apply H. lia.
Qed.

Lemma last_true_le f n : (last_true f n <= n)%nat.
Proof.
  induction n as [| n IH]; cbn [last_true]; [lia |].
  destruct (f n); lia.
Qed.

Lemma last_improvement_le L : (last_improvement L <= List.length L)%nat.
Proof. apply last_true_le. Qed.

Lemma last_improvement_snoc L y :
  last_improvement (L ++ [y])
  = if below y L then S (List.length L) else last_improvement L.
Proof.
  unfold last_improvement.
  rewrite List.length_app. cbn [List.length]. rewrite Nat.add_1_r.
  cbn [last_true]. rewrite improves_snoc_last.
  destruct (below y L); [reflexivity |].
  apply last_true_ext. intros i Hi. apply improves_snoc_before. exact Hi.
Qed.

Lemma stale_snoc L y :
  stale (L ++ [y]) = if below y L then 0%nat else S (stale L).
Proof.
  unfold stale. rewrite last_improvement_snoc.
  pose proof (last_improvement_le L) as Hle.
  rewrite List.length_app. cbn [List.length]. rewrite Nat.add_1_r.
  destruct (below y L); lia.
Qed.

(** The counter is the number of stale epochs. *)
Lemma fold_rule_stale L :
  snd (fold_left rule L (PosInf, 0%Z)) = Z.of_nat (stale L).
Proof.
  induction L as [| y L IH] using rev_ind.
  - reflexivity.
  - rewrite fold_rule_snoc, stale_snoc.
    unfold rule at 1. rewrite fold_rule_below.
    destruct (below y L); cbn [snd]; [reflexivity |].
    rewrite IH. lia.
Qed.

(** *** The dictionary of results *)

Lemma series_results_of h :
  series (results_of h) "train_loss" = List.map (fun e => m_loss (fst e)) h /\
  series (results_of h) "train_acc" = List.map (fun e => m_acc (fst e)) h /\
  series (results_of h) "train_recall"
  = List.map (fun e => m_recall (fst e)) h /\
  series (results_of h) "train_f1" = List.map (fun e => m_f1 (fst e)) h /\
  series (results_of h) "test_loss" = eval_losses h /\
  series (results_of h) "test_acc" = List.map (fun e => m_acc (snd e)) h /\
  series (results_of h) "test_recall"
  = List.map (fun e => m_recall (snd e)) h /\
  series (results_of h) "test_f1" = List.map (fun e => m_f1 (snd e)) h.
Proof.
  unfold series, results_of, eval_losses.
  cbn [list_to_map foldr uncurry curry fst snd].
  repeat split; simplify_map_eq; reflexivity.
Qed.

Lemma dom_results_of h : dom (results_of h) = result_keys.
Proof.
  unfold results_of, result_keys.
  cbn [list_to_map foldr uncurry curry fst snd].
  rewrite !dom_insert_L, dom_empty_L. set_solver.
Qed.

Lemma append_lookup key x (r : gmap string (list pyfloat)) l (w : world) :
  r !! key = Some l -> append key x r w = (w, inr (<[key := l ++ [x]]> r)).
Proof. intros H. unfold append. rewrite H. reflexivity. Qed.

Lemma append_all_results_of tm em h (w : world) :
  append_all tm em (results_of h) w
  = (w, inr (results_of (h ++ [(tm, em)]))).
Proof.
  destruct tm as [[[tl ta] tr] tf], em as [[[el ea] er] ef].
  unfold append_all, bind, results_of.
  cbn [list_to_map foldr uncurry curry fst snd].
  repeat (erewrite append_lookup; [| simplify_map_eq; reflexivity]).
  f_equal. f_equal. apply map_eq. intros k.
  rewrite !List.map_app. cbn [List.map fst snd m_loss m_acc m_recall m_f1].
  repeat (rewrite lookup_insert; case_decide;
          [subst; simplify_map_eq; try reflexivity |]).
  simplify_map_eq. reflexivity.
Qed.

(** *** One epoch *)

Lemma early_stopping_rule x b c : early_stopping x b c = rule (b, c) x.
Proof. reflexivity. Qed.

Lemma emit_inr e w w' u :
  emit e w = (w', inr u) ->
  writer_raises (sink w) e = None /\
  sink w' = sink w ++ [e] /\ stdout w' = stdout w.
Proof.
  unfold emit. destruct (writer_raises (sink w) e); intros H; inversion H.
  cbn. auto.
Qed.

Lemma emit_all_run es : forall w w' u,
  emit_all es w = (w', inr u) ->
  sink w' = sink w ++ es /\ stdout w' = stdout w.
Proof.
  induction es as [| e es IH]; intros w w' u Hrun; cbn [emit_all] in Hrun.
  - apply ret_inr in Hrun as [-> _]. rewrite app_nil_r. auto.
  - apply bind_inr in Hrun as (w1 & u1 & He & Hrun).
    apply emit_inr in He as (_ & Hs1 & Ho1).
    destruct (IH _ _ _ Hrun) as [Hs Ho].
    rewrite Hs, Ho, Hs1, Ho1, <- app_assoc. auto.
Qed.

Lemma logging_run writer example_input a tm em w w' u :
  logging writer example_input (Z.of_nat a) tm em w = (w', inr u) ->
  sink w' = sink w ++ epoch_log writer example_input a (tm, em) /\
  stdout w' = stdout w.
Proof.
  unfold logging, epoch_log. cbn [fst snd].
  destruct writer, example_input as [x |];
    try (intros H; apply ret_inr in H as [-> _]; rewrite app_nil_r; auto).
  apply emit_all_run.
Qed.

Section TrainProofs.

Variables (train_dataloader test_dataloader : dataloader).
Variable (writer : bool).
Variable (example_input : option (list Input)).
Variable (patience : Z).

Lemma epoch_body_run a h s w w' c s' :
  state_of h s ->
  epoch_body train_dataloader test_dataloader writer example_input
             patience (Z.of_nat a) s w = (w', inr (c, s')) ->
  exists e,
    state_of (h ++ [e]) s' /\
    c = (if (patience <=? patience_counter s')%Z then Break else Continue) /\
    stdout w' =
      stdout w ++ EpochLine (Z.of_nat a + 1) (fst e) (snd e)
             :: (if (patience <=? patience_counter s')%Z
                 then [EarlyStopLine (Z.of_nat a + 1)] else []) /\
    sink w' =
      sink w ++ (if (patience <=? patience_counter s')%Z then []
                 else epoch_log writer example_input a e).
Proof.
  intros [Hres Hst] Hrun. unfold epoch_body in Hrun.
  apply bind_inr in Hrun as (w1 & tm & Htrain & Hrun).
  apply bind_inr in Hrun as (w2 & em & Htest & Hrun).
  apply bind_inr in Hrun as (w3 & [] & Hprint & Hrun).
  apply bind_inr in Hrun as (w4 & r & Happ & Hrun).
  pose proof (train_step_same_output train_dataloader w) as [Hs1 Ho1].
  pose proof (test_step_same_output test_dataloader w1) as [Hs2 Ho2].
  rewrite Htrain in Hs1, Ho1. rewrite Htest in Hs2, Ho2.
  cbn [fst] in *.
  unfold print, modify in Hprint. inversion Hprint; subst w3; clear Hprint.
  cbn zeta in Hrun.
  rewrite Hres, append_all_results_of in Happ.
  inversion Happ; subst w4 r; clear Happ.
  rewrite early_stopping_rule in Hrun.
  assert (Hfold : fold_left rule
                            (eval_losses (h ++ [(as_floats tm, as_floats em)]))
                            (PosInf, 0%Z)
                  = rule (best_loss s, patience_counter s)
                         (m_loss (as_floats em))).
  { unfold eval_losses. rewrite List.map_app. cbn [List.map snd].
    rewrite fold_rule_snoc. f_equal. rewrite Hst. reflexivity. }
  destruct (rule (best_loss s, patience_counter s) (m_loss (as_floats em)))
    as [best counter] eqn:Hrule.
  exists (as_floats tm, as_floats em). cbn [fst snd].
  destruct (patience <=? counter)%Z eqn:Hstop.
  - apply bind_inr in Hrun as (w5 & [] & Hprint & Hret).
    unfold print, modify in Hprint. inversion Hprint; subst w5; clear Hprint.
    apply ret_inr in Hret as [-> Heq]. inversion Heq; subst c s'.
    cbn [patience_counter results best_loss sink stdout].
    rewrite Hstop. unfold state_of.
    cbn [patience_counter results best_loss].
    rewrite Hfold, app_nil_r, <- app_assoc. cbn [app].
    repeat split; congruence.
  - apply bind_inr in Hrun as (w5 & [] & Hlog & Hret).
    apply ret_inr in Hret as [-> Heq]. inversion Heq; subst c s'.
    apply logging_run in Hlog as [Hsink Hout].
    cbn [patience_counter results best_loss sink stdout] in *.
    rewrite Hstop. unfold state_of.
    cbn [patience_counter results best_loss].
    rewrite Hfold. repeat split; congruence.
Qed.

(** *** The loop *)

Lemma state_of_counter h s :
  state_of h s -> patience_counter s = Z.of_nat (stale (eval_losses h)).
Proof.
  intros [_ Hst]. rewrite <- fold_rule_stale, <- Hst. reflexivity.
Qed.

Lemma for_epochs_run k : forall a h s w w' s',
  state_of h s ->
  for_epochs train_dataloader test_dataloader writer example_input
             patience (List.map Z.of_nat (seq a k)) s w = (w', inr s') ->
  exists h',
    state_of (h ++ h') s' /\
    (List.length h' <= k)%nat /\
    let stop := (0 <? List.length h')%nat
                && (patience <=? patience_counter s')%Z in
    stdout w' =
      stdout w ++ epoch_lines a h'
             ++ (if stop
                 then [EarlyStopLine (Z.of_nat (a + List.length h'))]
                 else []) /\
    sink w' =
      sink w ++ epoch_logs writer example_input a
                           (if stop then removelast h' else h') /\
    (stop = false -> List.length h' = k) /\
    (forall j, (0 < j < List.length h')%nat ->
       (Z.of_nat (stale (eval_losses (h ++ firstn j h'))) < patience)%Z).
Proof.
  induction k as [| k IH]; intros a h s w w' s' Hst Hrun.
  - cbn in Hrun. apply ret_inr in Hrun as [-> ->].
    exists []. rewrite !app_nil_r. cbn.
    rewrite !app_nil_r.
    split; [exact Hst |]. repeat split; auto; intros; lia.
  - cbn [seq List.map for_epochs] in Hrun.
    apply bind_inr in Hrun as (w1 & [c s1] & Hbody & Hrun).
    destruct (epoch_body_run a h s w w1 c s1 Hst Hbody)
      as (e & Hst1 & Hc & Hout & Hsink).
    cbn [fst snd] in Hrun.
    pose proof (state_of_counter _ _ Hst1) as Hpc1.
    destruct (patience <=? patience_counter s1)%Z eqn:Hstop; subst c.
    + apply ret_inr in Hrun as [-> ->].
      exists [e]. cbn [List.length Nat.ltb Nat.leb andb removelast
                       epoch_lines epoch_logs app].
      rewrite Hstop. repeat split.
      * exact (proj1 Hst1).
      * exact (proj2 Hst1).
      * lia.
      * rewrite Hout. rewrite Nat2Z.inj_add. reflexivity.
      * exact Hsink.
      * discriminate.
      * intros j Hj. lia.
    + destruct (IH (S a) (h ++ [e]) s1 w1 w' s' Hst1 Hrun)
        as (h' & Hst' & Hlen & Hout' & Hsink' & Hfull & Hbefore).
      rewrite <- app_assoc in Hst'. cbn [app] in Hst'.
      exists (e :: h').
      assert (Hsame : (0 <? List.length h')%nat
                      && (patience <=? patience_counter s')%Z
                      = (patience <=? patience_counter s')%Z).
      { destruct h' as [| e' h']; [| reflexivity].
        cbn [List.length Nat.ltb Nat.leb andb].
        rewrite (state_of_counter _ _ Hst'), <- Hpc1, Hstop. reflexivity. }
      rewrite Hsame in Hout', Hsink', Hfull.
      cbn [List.length Nat.ltb Nat.leb andb].
      repeat split.
      * exact (proj1 Hst').
      * exact (proj2 Hst').
      * lia.
      * rewrite Hout', Hout. cbn [epoch_lines].
        rewrite <- app_assoc. cbn [app].
        replace (a + S (List.length h'))%nat
          with (S a + List.length h')%nat by lia.
        reflexivity.
      * rewrite Hsink', Hsink. rewrite <- app_assoc. f_equal.
        destruct (patience <=? patience_counter s')%Z eqn:Hend;
          [| reflexivity].
        destruct h' as [| e' h'].
        -- exfalso.
           rewrite (state_of_counter _ _ Hst'), <- Hpc1, Hstop in Hend.
           discriminate.
        -- reflexivity.
      * intros Hno. rewrite (Hfull Hno). reflexivity.
      * intros j Hj. destruct j as [| j]; [lia |].
        cbn [firstn]. destruct j as [| j].
        -- rewrite firstn_O, <- Hpc1. lia.
        -- replace (h ++ e :: firstn (S j) h')
             with ((h ++ [e]) ++ firstn (S j) h')
             by (rewrite <- app_assoc; reflexivity).
           apply Hbefore. lia.
Qed.

End TrainProofs.

(** *** A run of [train] *)

Lemma state_of_start : state_of [] loop_state0.
Proof. split; reflexivity. Qed.

Lemma train_run tdl edl epochs writer example_input patience w w' res :
  train tdl edl epochs writer example_input patience w = (w', inr res) ->
  exists h,
    res = results_of h /\
    (List.length h <= Z.to_nat epochs)%nat /\
    let L := eval_losses h in
    let stop := exhausted patience L in
    printed w w' =
      epoch_lines 0 h
      ++ (if stop then [EarlyStopLine (Z.of_nat (List.length h))] else []) /\
    emitted w w' =
      epoch_logs writer example_input 0 (if stop then removelast h else h) /\
    (stop = false -> List.length h = Z.to_nat epochs) /\
    (forall j, (0 < j < List.length h)%nat ->
       (Z.of_nat (stale (firstn j L)) < patience)%Z).
Proof.
  intros Hrun. unfold train in Hrun.
  apply bind_inr in Hrun as (w1 & s & Hloop & Hret).
  apply ret_inr in Hret as [-> ->].
  unfold py_range in Hloop.
  destruct (for_epochs_run tdl edl writer example_input patience
              _ _ _ _ _ _ _ state_of_start Hloop)
    as (h & Hst & Hlen & Hout & Hsink & Hfull & Hbefore).
  cbn [app Nat.add] in *.
  exists h.
  assert (Hstop : exhausted patience (eval_losses h)
                  = (0 <? List.length h)%nat
                    && (patience <=? patience_counter s)%Z).
  { unfold exhausted, eval_losses. rewrite List.length_map.
    fold (eval_losses h). rewrite (state_of_counter _ _ Hst).
    reflexivity. }
  cbn zeta. rewrite Hstop.
  unfold printed, emitted. rewrite Hout, Hsink, !drop_app_length.
  repeat split; try assumption.
  - exact (proj1 Hst).
  - intros j Hj. unfold eval_losses. rewrite firstn_map.
    apply Hbefore. exact Hj.
Qed.

(** *** Reading a run off the results and the output *)

Lemma nth_map_lt {A} (f : A -> pyfloat) (l : list A) (d : A) i :
  (i < List.length l)%nat -> nth i (List.map f l) (Fin 0) = f (nth i l d).
Proof.
  intros Hi.
  rewrite (nth_indep _ (Fin 0) (f d)) by (rewrite List.length_map; exact Hi).
  apply map_nth.
Qed.

Lemma epoch_of_results_of h i :
  (i < List.length h)%nat ->
  epoch_of (results_of h) i = nth i h (zeros, zeros).
Proof.
  intros Hi.
  destruct (series_results_of h) as (H1 & H2 & H3 & H4 & H5 & H6 & H7 & H8).
  unfold eval_losses in H5.
  unfold epoch_of, train_metrics, test_metrics.
  rewrite H1, H2, H3, H4, H5, H6, H7, H8.
  rewrite !(nth_map_lt _ h (zeros, zeros)) by exact Hi.
  destruct (nth i h _) as [[[[a b] c] d] [[[a' b'] c'] d']]. reflexivity.
Qed.

Lemma series_length h key :
  key ∈ result_keys -> List.length (series (results_of h) key) = List.length h.
Proof.
  intros Hk.
  destruct (series_results_of h) as (H1 & H2 & H3 & H4 & H5 & H6 & H7 & H8).
  unfold eval_losses in H5. unfold result_keys in Hk.
  set_unfold in Hk. destruct_or!; subst key;
    first [rewrite H1 | rewrite H2 | rewrite H3 | rewrite H4
          | rewrite H5 | rewrite H6 | rewrite H7 | rewrite H8];
    apply List.length_map.
Qed.

Lemma epoch_lines_seq res : forall h a,
  (forall i, (i < List.length h)%nat ->
     epoch_of res (a + i) = nth i h (zeros, zeros)) ->
  epoch_lines a h
  = List.map (fun i => EpochLine (Z.of_nat i + 1)
                                 (train_metrics res i) (test_metrics res i))
             (seq a (List.length h)).
Proof.
  induction h as [| e h IH]; intros a H; cbn [epoch_lines List.length seq List.map].
  - reflexivity.
  - pose proof (H 0%nat ltac:(cbn; lia)) as H0.
    rewrite Nat.add_0_r in H0. cbn [nth] in H0.
    unfold epoch_of in H0. rewrite <- H0. cbn [fst snd].
    f_equal. apply IH. intros i Hi.
    specialize (H (S i) ltac:(cbn; lia)). cbn [nth] in H.
    rewrite <- H. f_equal. lia.
Qed.

Lemma epoch_logs_seq writer example_input res : forall h a,
  (forall i, (i < List.length h)%nat ->
     epoch_of res (a + i) = nth i h (zeros, zeros)) ->
  epoch_logs writer example_input a h
  = List.flat_map (fun i => epoch_log writer example_input i (epoch_of res i))
                  (seq a (List.length h)).
Proof.
  induction h as [| e h IH]; intros a H;
    cbn [epoch_logs List.length seq List.flat_map].
  - reflexivity.
  - pose proof (H 0%nat ltac:(cbn; lia)) as H0.
    rewrite Nat.add_0_r in H0. cbn [nth] in H0. rewrite H0.
    f_equal. apply IH. intros i Hi.
    specialize (H (S i) ltac:(cbn; lia)). cbn [nth] in H.
    rewrite <- H. f_equal. lia.
Qed.

Lemma filter_epoch_lines a h tail :
  List.filter is_epoch_line (epoch_lines a h ++ tail)
  = epoch_lines a h ++ List.filter is_epoch_line tail.
Proof.
  revert a. induction h as [| e h IH]; intros a; cbn; [reflexivity |].
  rewrite IH. reflexivity.
Qed.

Lemma length_epoch_lines a h : List.length (epoch_lines a h) = List.length h.
Proof.
  revert a. induction h as [| e h IH]; intros a; cbn; [reflexivity |].
  rewrite IH. reflexivity.
Qed.

Lemma existsb_epoch_lines a h tail :
  existsb (fun e => negb (is_epoch_line e)) (epoch_lines a h ++ tail)
  = existsb (fun e => negb (is_epoch_line e)) tail.
Proof.
  revert a. induction h as [| e h IH]; intros a; cbn; [reflexivity |].
  apply IH.
Qed.

(** A run seen from outside: the history [h] it went through. *)
Lemma train_observed tdl edl epochs writer example_input patience w w' res :
  train tdl edl epochs writer example_input patience w = (w', inr res) ->
  exists h,
    res = results_of h /\
    epochs_run w w' = List.length h /\
    early_stopped w w' = exhausted patience (eval_losses h) /\
    (List.length h <= Z.to_nat epochs)%nat /\
    printed w w' =
      epoch_lines 0 h
      ++ (if early_stopped w w'
          then [EarlyStopLine (Z.of_nat (List.length h))] else []) /\
    emitted w w' =
      epoch_logs writer example_input 0
                 (if early_stopped w w' then removelast h else h) /\
    (early_stopped w w' = false -> List.length h = Z.to_nat epochs) /\
    (forall j, (0 < j < List.length h)%nat ->
       (Z.of_nat (stale (firstn j (eval_losses h))) < patience)%Z).
Proof.
  intros Hrun.
  destruct (train_run _ _ _ _ _ _ _ _ _ Hrun)
    as (h & Hres & Hlen & Hout & Hsink & Hfull & Hbefore).
  exists h.
  assert (Hn : epochs_run w w' = List.length h).
  { unfold epochs_run. rewrite Hout, filter_epoch_lines.
    rewrite List.length_app, length_epoch_lines.
    destruct (exhausted _ _); cbn; lia. }
  assert (Hs : early_stopped w w' = exhausted patience (eval_losses h)).
  { unfold early_stopped. rewrite Hout, existsb_epoch_lines.
    destruct (exhausted _ _); reflexivity. }
  rewrite Hs. repeat split; assumption.
Qed.

Lemma epoch_logs_prefix writer example_input h k :
  (k <= List.length h)%nat ->
  epoch_logs writer example_input 0 (firstn k h)
  = List.flat_map
      (fun i => epoch_log writer example_input i (epoch_of (results_of h) i))
      (seq 0 k).
Proof.
  intros Hk.
  rewrite (epoch_logs_seq writer example_input (results_of h)).
  - rewrite firstn_length_le by exact Hk. reflexivity.
  - intros i Hi. rewrite firstn_length_le in Hi by exact Hk.
    rewrite nth_firstn. apply Nat.ltb_lt in Hi as Hi'. rewrite Hi'.
    apply epoch_of_results_of. cbn. lia.
Qed.

Lemma epoch_lines_results h :
  epoch_lines 0 h
  = List.map (fun i => EpochLine (Z.of_nat i + 1)
                                 (train_metrics (results_of h) i)
                                 (test_metrics (results_of h) i))
             (seq 0 (List.length h)).
Proof.
  apply epoch_lines_seq. intros i Hi. apply epoch_of_results_of. exact Hi.
Qed.

Lemma logged_prefix (stop : bool) (h : list (floats * floats)) :
  (if stop then removelast h else h)
  = firstn (if stop then List.length h - 1 else List.length h)%nat h.
Proof.
  destruct stop.
  - rewrite removelast_firstn_len. f_equal. lia.
  - rewrite firstn_all. reflexivity.
Qed.

Lemma epoch_log_step writer example_input i e tag d g :
  In (AddScalars tag d g) (epoch_log writer example_input i e) ->
  g = Z.of_nat i.
Proof.
  unfold epoch_log, log_events.
  destruct writer, example_input as [x |]; cbn; try tauto.
  destruct e as [[[[a b] c] d1] [[[a' b'] c'] d2]]. cbn.
  intros H. repeat (destruct H as [H | H]; [inversion H; reflexivity |]).
  repeat (destruct H as [H | H]; [discriminate |]). destruct H.
Qed.

Lemma stale_bounded_by_prefix L p :
  (forall j, (0 < j < List.length L)%nat ->
     (Z.of_nat (stale (firstn j L)) < p)%Z) ->
  (Z.of_nat (stale L) <= Z.max p 1)%Z.
Proof.
  intros Hbefore. induction L as [| y L _] using rev_ind.
  - cbn. lia.
  - rewrite stale_snoc. destruct (below y L) eqn:E; [lia |].
    destruct L as [| x L]; [cbn; lia |].
    specialize (Hbefore (List.length (x :: L))).
    rewrite List.length_app in Hbefore.
    rewrite firstn_app, Nat.sub_diag, firstn_all in Hbefore.
    cbn [firstn] in Hbefore. rewrite app_nil_r in Hbefore.
    cbn [List.length] in *. lia.
Qed.

(** *** The claims on [train] *)

(** C6: the dictionary a run returns has exactly the eight keys, and
    the series of each of them has one entry per epoch the run
    executed. *)
Theorem results_have_one_entry_per_epoch
        tdl edl epochs writer example_input patience w w' res :
  train tdl edl epochs writer example_input patience w = (w', inr res) ->
  dom res = result_keys /\
  size res = 8%nat /\
  (forall key, key ∈ result_keys ->
     exists l, res !! key = Some l /\ List.length l = epochs_run w w').
Proof.
  intros Hrun.
  destruct (train_observed _ _ _ _ _ _ _ _ _ Hrun) as (h & -> & Hn & _).
  pose proof (dom_results_of h) as Hdom.
  split; [exact Hdom |]. split.
  - rewrite <- size_dom, Hdom. reflexivity.
  - intros key Hk. pose proof (series_length h key Hk) as Hlen.
    rewrite <- Hdom in Hk. apply elem_of_dom in Hk as [l Hl].
    exists l. split; [exact Hl |].
    unfold series in Hlen. rewrite Hl in Hlen. cbn in Hlen. congruence.
Qed.

(** C3: when early stopping fires, the epoch that triggered it was
    printed and has its eight values at the end of the series, but
    the writer received the records of the earlier epochs only: no
    record carries the index of the triggering epoch. *)
Theorem early_stop_epoch_is_not_logged
        tdl edl epochs writer example_input patience w w' res :
  train tdl edl epochs writer example_input patience w = (w', inr res) ->
  early_stopped w w' = true ->
  let n := epochs_run w w' in
  (0 < n)%nat /\
  printed w w' =
    List.map (fun i => EpochLine (Z.of_nat i + 1)
                                 (train_metrics res i) (test_metrics res i))
             (seq 0 n)
    ++ [EarlyStopLine (Z.of_nat n)] /\
  (forall key, key ∈ result_keys -> List.length (series res key) = n) /\
  emitted w w' =
    List.flat_map
      (fun i => epoch_log writer example_input i (epoch_of res i))
      (seq 0 (n - 1)) /\
  (forall tag d,
     ~ In (AddScalars tag d (Z.of_nat n - 1)) (emitted w w')).
Proof.
  intros Hrun Hstop n.
  destruct (train_observed _ _ _ _ _ _ _ _ _ Hrun)
    as (h & -> & Hn & Hex & _ & Hout & Hsink & _).
  subst n. rewrite Hstop in Hout, Hsink. rewrite Hn.
  assert (Hpos : (0 < List.length h)%nat).
  { rewrite Hstop in Hex. symmetry in Hex. unfold exhausted in Hex.
    apply andb_true_iff in Hex as [Hex _].
    unfold eval_losses in Hex. rewrite List.length_map in Hex.
    apply Nat.ltb_lt. exact Hex. }
  assert (Hlog : emitted w w' =
                 List.flat_map
                   (fun i => epoch_log writer example_input i
                                       (epoch_of (results_of h) i))
                   (seq 0 (List.length h - 1))).
  { rewrite Hsink, (logged_prefix true). apply epoch_logs_prefix. lia. }
  repeat split.
  - exact Hpos.
  - rewrite Hout, epoch_lines_results. reflexivity.
  - intros key Hk. apply series_length. exact Hk.
  - exact Hlog.
  - intros tag d Hin. rewrite Hlog in Hin.
    apply in_flat_map in Hin as (i & Hi & Hin).
    apply epoch_log_step in Hin. apply in_seq in Hi. lia.
Qed.

(** C8: in every epoch that reaches the logging, and only when a
    writer and an example input were both passed, the writer
    receives the four pairs of scalars of that epoch under its
    index, the graph of the model and a close, in this order; it
    receives nothing else. *)
Theorem logging_iff_writer_and_example
        tdl edl epochs writer example_input patience w w' res :
  train tdl edl epochs writer example_input patience w = (w', inr res) ->
  emitted w w' =
    List.flat_map
      (fun i =>
         match writer, example_input with
         | true, Some x =>
             [AddScalars "Loss"
                [("train_loss", nth i (series res "train_loss") (Fin 0));
                 ("test_loss", nth i (series res "test_loss") (Fin 0))]
                (Z.of_nat i);
              AddScalars "Accuracy"
                [("train_acc", nth i (series res "train_acc") (Fin 0));
                 ("test_acc", nth i (series res "test_acc") (Fin 0))]
                (Z.of_nat i);
              AddScalars "Recall"
                [("train_recall", nth i (series res "train_recall") (Fin 0));
                 ("test_recall", nth i (series res "test_recall") (Fin 0))]
                (Z.of_nat i);
              AddScalars "F1-Score"
                [("train_f1", nth i (series res "train_f1") (Fin 0));
                 ("test_f1", nth i (series res "test_f1") (Fin 0))]
                (Z.of_nat i);
              AddGraph x;
              Close]%string
         | _, _ => []
         end)
      (seq 0 (epochs_logged w w')).
Proof.
  intros Hrun.
  destruct (train_observed _ _ _ _ _ _ _ _ _ Hrun)
    as (h & -> & Hn & _ & _ & _ & Hsink & _).
  rewrite Hsink, logged_prefix, epoch_logs_prefix
    by (destruct (early_stopped w w'); lia).
  unfold epochs_logged. rewrite Hn.
  destruct (early_stopped w w');
    apply flat_map_ext; intros i;
    unfold epoch_log, log_events, epoch_of, train_metrics, test_metrics;
    destruct writer, example_input; reflexivity.
Qed.

(** C1: a run stops at the first epoch at which the evaluation loss
    has not strictly improved for [patience] epochs in a row, with
    the early-stopping message.  With a patience of 1 or more this
    is after the number of the epoch (from 1) of the last strict
    improvement, 0 when no epoch improved on [float('inf')], plus
    [patience] epochs in all; for any patience it is after that
    many epochs or after 1 epoch, whichever is more.  A run in which
    this never happens executes [epochs] epochs and prints no such
    message. *)
Theorem early_stopping_epoch_count
        tdl edl epochs writer example_input patience w w' res :
  train tdl edl epochs writer example_input patience w = (w', inr res) ->
  let L := series res "test_loss" in
  let n := epochs_run w w' in
  List.length L = n /\
  (n <= Z.to_nat epochs)%nat /\
  (forall j, (0 < j < n)%nat ->
     (Z.of_nat (stale (firstn j L)) < patience)%Z) /\
  early_stopped w w' = exhausted patience L /\
  (exhausted patience L = true ->
     Z.of_nat n = Z.max 1 (Z.of_nat (last_improvement L) + patience) /\
     ((1 <= patience)%Z ->
      Z.of_nat n = (Z.of_nat (last_improvement L) + patience)%Z)) /\
  (exhausted patience L = false -> n = Z.to_nat epochs).
Proof.
  intros Hrun L n.
  destruct (train_observed _ _ _ _ _ _ _ _ _ Hrun)
    as (h & -> & Hn & Hex & Hmax & _ & _ & Hfull & Hbefore).
  destruct (series_results_of h) as (_ & _ & _ & _ & HL & _).
  subst L n. rewrite HL, Hn in *.
  assert (Hlen : List.length (eval_losses h) = List.length h).
  { unfold eval_losses. apply List.length_map. }
  split; [exact Hlen |]. split; [exact Hmax |].
  split; [exact Hbefore |]. split; [exact Hex |]. split.
  - intros Hstop. unfold exhausted in Hstop.
    apply andb_true_iff in Hstop as [Hpos Hge].
    apply Z.leb_le in Hge. apply Nat.ltb_lt in Hpos.
    assert (Hle : (Z.of_nat (stale (eval_losses h)) <= Z.max patience 1)%Z).
    { apply stale_bounded_by_prefix. rewrite Hlen. exact Hbefore. }
    pose proof (last_improvement_le (eval_losses h)) as Hlast.
    assert (Hone : (patience <= 0)%Z -> List.length h = 1%nat).
    { intros Hp0. destruct h as [| e1 [| e2 h]]; cbn in Hpos; [lia | auto |].
      specialize (Hbefore 1%nat ltac:(cbn; lia)). lia. }
    rewrite Hlen in *. unfold stale in *. rewrite Hlen in *.
    split; [| intros Hp1]; lia.
  - intros Hno. apply Hfull. congruence.
Qed.

(** C2: the locals [best_loss] and [patience_counter] start at
    infinity and 0 and follow the rule epoch after epoch; the
    counter is the number of completed epochs since the last strict
    improvement; after every epoch but the last the counter was
    below [patience], and the loop ends before [epochs] epochs only
    with a counter that has reached [patience]. *)
Theorem early_stopping_state_invariant
        tdl edl writer example_input patience epochs w w' s :
  for_epochs tdl edl writer example_input patience (py_range epochs)
             loop_state0 w = (w', inr s) ->
  let L := series (results s) "test_loss" in
  (best_loss s, patience_counter s) = fold_left rule L (PosInf, 0%Z) /\
  patience_counter s = Z.of_nat (stale L) /\
  (forall j, (0 < j < List.length L)%nat ->
     (snd (fold_left rule (firstn j L) (PosInf, 0%Z)) < patience)%Z) /\
  ((List.length L < Z.to_nat epochs)%nat ->
     (0 < List.length L)%nat /\ (patience <= patience_counter s)%Z).
Proof.
  intros Hrun L. unfold py_range in Hrun.
  destruct (for_epochs_run tdl edl writer example_input patience
              _ _ _ _ _ _ _ state_of_start Hrun)
    as (h & Hst & _ & _ & _ & Hfull & Hbefore).
  cbn [app] in *.
  destruct (series_results_of h) as (_ & _ & _ & _ & HL & _).
  assert (Hlen : List.length (eval_losses h) = List.length h).
  { unfold eval_losses. apply List.length_map. }
  subst L. rewrite (proj1 Hst), HL, Hlen.
  repeat split.
  - exact (proj2 Hst).
  - apply state_of_counter. exact Hst.
  - intros j Hj. rewrite fold_rule_stale.
    unfold eval_losses. rewrite firstn_map. apply Hbefore. exact Hj.
  - destruct (0 <? List.length h)%nat eqn:E.
    + apply Nat.ltb_lt. exact E.
    + cbn in Hfull. specialize (Hfull eq_refl). lia.
  - destruct ((0 <? List.length h)%nat
              && (patience <=? patience_counter s)%Z) eqn:E.
    + apply andb_true_iff in E as [_ E]. apply Z.leb_le. exact E.
    + specialize (Hfull eq_refl). lia.
Qed.

(** C10: with a patience that is not positive and at least one
    epoch to run, a run whose first two steps return stops after
    that one epoch, whatever the evaluation loss: it prints the line
    of epoch 1 and the early-stopping message, and returns the
    metrics of that epoch alone. *)
Theorem nonpositive_patience_stops_after_one_epoch
        tdl edl epochs writer example_input patience w w1 w2 tm em :
  (patience <= 0)%Z ->
  (1 <= epochs)%Z ->
  train_step tdl w = (w1, inr tm) ->
  test_step edl w1 = (w2, inr em) ->
  exists w',
    train tdl edl epochs writer example_input patience w
    = (w', inr (results_of [(as_floats tm, as_floats em)])) /\
    epochs_run w w' = 1%nat /\
    early_stopped w w' = true /\
    printed w w'
    = [EpochLine 1 (as_floats tm) (as_floats em); EarlyStopLine 1] /\
    emitted w w' = [].
Proof.
  intros Hp He Htrain Htest.
  pose proof (train_step_same_output tdl w) as [Hs1 Ho1].
  pose proof (test_step_same_output edl w1) as [Hs2 Ho2].
  rewrite Htrain in Hs1, Ho1. rewrite Htest in Hs2, Ho2. cbn [fst] in *.
  unfold train, py_range.
  destruct (Z.to_nat epochs) as [| k] eqn:Hk; [lia |].
  cbn [seq List.map for_epochs].
  unfold bind at 1. unfold bind at 1. unfold epoch_body.
  unfold bind at 1. rewrite Htrain.
  unfold bind at 1. rewrite Htest.
  unfold bind at 1. unfold print at 1. unfold modify at 1.
  unfold bind at 1.
  change (results loop_state0) with (results_of []).
  rewrite append_all_results_of.
  cbn [app loop_state0 best_loss patience_counter].
  unfold early_stopping.
  assert (Hstop : forall c, (0 <= c)%Z -> (patience <=? c)%Z = true)
    by (intros c Hc; apply Z.leb_le; lia).
  destruct (float_lt (m_loss (as_floats em)) PosInf);
    rewrite Hstop by lia;
    unfold bind, print, modify, ret; cbn [fst snd];
    (eexists; split; [reflexivity |]);
    unfold epochs_run, early_stopped, printed, emitted;
    cbn [stdout sink]; rewrite Hs2, Hs1, Ho2, Ho1;
    rewrite <- app_assoc, drop_app_length, drop_all;
    cbn; auto.
Qed.

(** *** Ranges of the accuracy and of the loss *)

Lemma inject_nat_pos n : (0 < n)%nat -> 0 < inject_Z (Z.of_nat n).
Proof.
  intros H. change 0 with (inject_Z 0). rewrite <- Zlt_Qlt. lia.
Qed.

Lemma inject_nat_nonneg n : 0 <= inject_Z (Z.of_nat n).
Proof. change 0 with (inject_Z 0). rewrite <- Zle_Qle. lia. Qed.

Lemma fraction_range c n :
  (c <= n)%nat ->
  0 <= inject_Z (Z.of_nat c) / inject_Z (Z.of_nat n) <= 1.
Proof.
  intros Hc. destruct n as [| n].
  - replace c with 0%nat by lia. split; discriminate.
  - pose proof (inject_nat_pos (S n) ltac:(lia)) as Hpos. split.
    + apply Qle_shift_div_l; [exact Hpos |].
      rewrite Qmult_0_l. apply inject_nat_nonneg.
    + apply Qle_shift_div_r; [exact Hpos |].
      rewrite Qmult_1_l. rewrite <- Zle_Qle. lia.
Qed.

Lemma correct_examples_le p y : (correct_examples p y <= List.length y)%nat.
Proof.
  unfold correct_examples.
  etransitivity; [apply List.filter_length_le |].
  rewrite List.length_combine. lia.
Qed.

Lemma batch_accuracy_range p y : 0 <= batch_accuracy p y <= 1.
Proof. apply fraction_range, correct_examples_le. Qed.

Lemma Qsum_range (l : list Q) :
  Forall (fun x => 0 <= x <= 1) l ->
  0 <= Qsum l <= inject_Z (Z.of_nat (List.length l)).
Proof.
  induction 1 as [| x l [Hx0 Hx1] _ [IH0 IH1]].
  - cbn. split; discriminate.
  - cbn [Qsum fold_right List.length]. fold (Qsum l).
    rewrite Nat2Z.inj_succ. unfold Z.succ. rewrite inject_Z_plus.
    change (inject_Z 1) with 1. split; lra.
Qed.

Lemma run_step_inr s dl w w' m :
  run_step s dl w = (w', inr m) ->
  let T := step_trace s dl w in
  exists a,
    dl <> [] /\
    List.length T = List.length dl /\
    float_eq (m_loss m) (float_mean (List.map trace_loss T)) /\
    m_acc m == mean (List.map trace_accuracy T) /\
    all_preds a = List.flat_map (fun py => List.map torch_round (fst py)) T /\
    all_targets a = List.flat_map snd T /\
    recall_score (all_targets a) (all_preds a) = inr (m_recall m) /\
    f1_score (all_targets a) (all_preds a) = inr (m_f1 m).
Proof.
  intros Hrun T. subst T. destruct s; cbn [run_step step_trace] in *.
  - destruct (step_inr train_batch true dl w w' m train_batch_adds Hrun)
      as (a & _ & H). exists a. exact H.
  - destruct (step_inr test_batch false dl w w' m test_batch_adds Hrun)
      as (a & _ & H). exists a. exact H.
Qed.

Lemma mean_range (l : list Q) :
  l <> [] -> Forall (fun x => 0 <= x <= 1) l -> 0 <= mean l <= 1.
Proof.
  intros Hne Hall. destruct (Qsum_range l Hall) as [H0 H1].
  assert (Hpos : 0 < inject_Z (Z.of_nat (List.length l))).
  { apply inject_nat_pos. destruct l; [congruence | cbn; lia]. }
  unfold mean. split.
  - apply Qle_shift_div_l; [exact Hpos |]. rewrite Qmult_0_l. exact H0.
  - apply Qle_shift_div_r; [exact Hpos |]. rewrite Qmult_1_l. exact H1.
Qed.

Lemma float_add_nonneg x y :
  float_le (Fin 0) x = true -> float_le (Fin 0) y = true ->
  float_le (Fin 0) (float_add x y) = true.
Proof.
  destruct x, y; cbn; try congruence.
  rewrite !Qle_bool_iff. intros. lra.
Qed.

Lemma float_sum_nonneg (l : list pyfloat) :
  Forall (fun x => float_le (Fin 0) x = true) l ->
  float_le (Fin 0) (float_sum l) = true.
Proof.
  induction 1 as [| x l Hx _ IH].
  - reflexivity.
  - cbn [float_sum fold_right]. fold (float_sum l).
    apply float_add_nonneg; assumption.
Qed.

Lemma float_div_int_nonneg x n :
  (0 < n)%nat -> float_le (Fin 0) x = true ->
  float_le (Fin 0) (float_div_int x (Z.of_nat n)) = true.
Proof.
  intros Hn. pose proof (inject_nat_pos n Hn) as Hpos.
  assert (Hz : (0 <? Z.of_nat n)%Z = true) by (apply Z.ltb_lt; lia).
  destruct x; cbn; rewrite ?Hz; try congruence.
  rewrite !Qle_bool_iff. intros H.
  apply Qle_shift_div_l; [exact Hpos |]. rewrite Qmult_0_l. exact H.
Qed.

Lemma float_le_eq x y :
  float_eq x y -> float_le (Fin 0) y = true -> float_le (Fin 0) x = true.
Proof.
  destruct x, y; cbn; try tauto.
  rewrite !Qle_bool_iff. intros H. rewrite H. auto.
Qed.

(** The accuracy and the loss of a step that returns. *)
Lemma step_accuracy_loss_range s dl w w' m :
  run_step s dl w = (w', inr m) ->
  let T := step_trace s dl w in
  0 <= m_acc m <= 1 /\
  (Forall (fun py => float_le (Fin 0) (trace_loss py) = true) T ->
   float_le (Fin 0) (m_loss m) = true).
Proof.
  intros Hrun T.
  destruct (run_step_inr s dl w w' m Hrun) as (a & Hne & Hn & Hl & Ha & _).
  fold T in Hn, Hl, Ha.
  assert (HT : T <> []).
  { intros E. rewrite E in Hn. destruct dl; [congruence | discriminate]. }
  split; [| intros Hall].
  - rewrite Ha. apply mean_range.
    + destruct T; [congruence | discriminate].
    + apply Forall_map. apply Forall_forall.
      intros [p y] _. apply batch_accuracy_range.
  - apply (float_le_eq _ _ Hl). unfold float_mean.
    apply float_div_int_nonneg.
    + rewrite List.length_map. destruct T; [congruence | cbn; lia].
    + apply float_sum_nonneg. apply Forall_map. exact Hall.
Qed.

(** *** Further properties of the steps *)

Lemma bind_inl {A B} (m : M A) (k : A -> M B) w w' e :
  bind m k w = (w', inl e) ->
  m w = (w', inl e) \/
  exists w1 a, m w = (w1, inr a) /\ k a w1 = (w', inl e).
Proof.
  unfold bind. destruct (m w) as [w1 [e1 | a]]; intros H.
  - left. inversion H. reflexivity.
  - right. eauto.
Qed.

Lemma py_div_cases a n :
  match py_div a (Z.of_nat n) with
  | inl e => n = 0%nat /\ e = ZeroDivisionError
  | inr _ => n <> 0%nat
  end.
Proof.
  unfold py_div. destruct (Z.eqb_spec (Z.of_nat n) 0).
  - split; [lia | reflexivity].
  - lia.
Qed.

Lemma length_zero_iff {A} (l : list A) : List.length l = 0%nat <-> l = [].
Proof. destruct l; cbn; split; intros H; congruence || lia. Qed.

Lemma train_batch_divides : divides_by_batch_size train_batch.
Proof.
  intros a b w.
  unfold train_batch, bind, get_buffers, model_call, forward, lift, ret,
    optimizer_zero_grad, loss_backward, optimizer_step, modify.
  cbn [params buffers training grads opt_state sink stdout].
  destruct (opt_step _ _ _) as [o p'].
  match goal with |- context [py_div ?x (Z.of_nat ?n)] =>
    pose proof (py_div_cases x n) as H; destruct (py_div x (Z.of_nat n)) end;
    cbn [snd]; unfold inputs in H; rewrite !List.length_map in H.
  - destruct H as [H ->]. apply length_zero_iff in H. auto.
  - intros ->. apply H. reflexivity.
Qed.

Lemma test_batch_divides : divides_by_batch_size test_batch.
Proof.
  intros a b w.
  unfold test_batch, bind, model_call, forward, lift, ret.
  match goal with |- context [py_div ?x (Z.of_nat ?n)] =>
    pose proof (py_div_cases x n) as H; destruct (py_div x (Z.of_nat n)) end;
    cbn [snd]; unfold inputs in H; rewrite !List.length_map in H.
  - destruct H as [H ->]. apply length_zero_iff in H. auto.
  - intros ->. apply H. reflexivity.
Qed.

Lemma for_batches_outcome body :
  divides_by_batch_size body ->
  forall dl a w,
    match snd (for_batches body dl a w) with
    | inl e => In [] dl /\ e = ZeroDivisionError
    | inr _ => ~ In [] dl
    end.
Proof.
  intros Hbody dl. induction dl as [| b dl IH]; intros a w;
    cbn [for_batches].
  - cbn. tauto.
  - unfold bind. specialize (Hbody a b w).
    destruct (body a b w) as [w1 [e | a1]]; cbn [snd] in *.
    + destruct Hbody as [-> ->]. split; [left |]; reflexivity.
    + specialize (IH a1 w1).
      destruct (snd (for_batches body dl a1 w1)) as [e | a2].
      * destruct IH as [Hin ->]. split; [right; exact Hin | reflexivity].
      * intros [Hb | Hin]; [congruence | tauto].
Qed.

Lemma step_body s :
  exists body t,
    adds_batch body /\ divides_by_batch_size body /\
    (forall dl w,
       step_trace s dl w = pass_trace body dl accum0 (in_mode t w) /\
       run_step s dl w
       = bind (for_batches body dl accum0) (finish dl) (in_mode t w)).
Proof.
  destruct s.
  - exists train_batch, true.
    split; [exact train_batch_adds |].
    split; [exact train_batch_divides |]. intros dl w. split; reflexivity.
  - exists test_batch, false.
    split; [exact test_batch_adds |].
    split; [exact test_batch_divides |]. intros dl w. split; reflexivity.
Qed.


Lemma for_batches_collects body :
  adds_batch body ->
  forall dl w w' a,
    for_batches body dl accum0 w = (w', inr a) ->
    all_preds a = epoch_preds (pass_trace body dl accum0 w) /\
    all_targets a = epoch_targets (pass_trace body dl accum0 w).
Proof.
  intros Hbody dl w w' a Hrun.
  destruct (for_batches_sums body Hbody _ _ _ _ _ Hrun)
    as (_ & _ & _ & Hp & Ht).
  cbn [accum0 all_preds all_targets app] in *. auto.
Qed.

(** C5: on a dataloader with at least one batch and no batch
    without examples, when the two scores return on the targets and
    the rounded predictions of the pass, either step returns; the
    loss and the accuracy it returns are the sums of the losses and
    of the accuracies of its batches divided by the number of
    batches, where the accuracy of a batch is the fraction of its
    examples whose rounded prediction equals the target. *)
Theorem step_returns_batch_means (s : step) (dl : dataloader) (w : world) :
  let T := step_trace s dl w in
  dl <> [] ->
  ~ In [] dl ->
  (exists r, recall_score (epoch_targets T) (epoch_preds T) = inr r) ->
  (exists f, f1_score (epoch_targets T) (epoch_preds T) = inr f) ->
  exists w' m,
    run_step s dl w = (w', inr m) /\
    List.length T = List.length dl /\
    float_eq (m_loss m)
             (float_div_int (float_sum (List.map trace_loss T))
                            (Z.of_nat (List.length dl))) /\
    m_acc m == Qsum (List.map trace_accuracy T)
               / inject_Z (Z.of_nat (List.length dl)).
Proof.
  intros T Hne Hno [r Hr] [f Hf].
  assert (exists w' m, run_step s dl w = (w', inr m)) as (w' & m & Hrun).
  { subst T. destruct (step_body s) as (body & t & Hadds & Hdiv & Hs).
    destruct (Hs dl w) as [HT Hstep]. rewrite Hstep. rewrite HT in Hr, Hf.
    pose proof (for_batches_outcome body Hdiv dl accum0 (in_mode t w))
      as Hout.
    unfold bind.
    destruct (for_batches body dl accum0 (in_mode t w)) as [w1 [e | a]] eqn:E;
      cbn [snd] in Hout.
    - destruct Hout as [Hin _]. contradiction.
    - destruct (for_batches_collects body Hadds _ _ _ _ E) as [Hp Ht].
      rewrite <- Hp, <- Ht in Hr, Hf.
      unfold finish, bind, lift, ret. rewrite Hr, Hf.
      unfold py_div, py_div_float.
      destruct (Z.eqb_spec (Z.of_nat (List.length dl)) 0) as [Hz | _].
      + destruct dl; [congruence | cbn in Hz; lia].
      + eauto. }
  exists w', m. split; [exact Hrun |].
  destruct (run_step_inr s dl w w' m Hrun) as (a & _ & Hn & Hl & Ha & _).
  fold T in Hn, Hl, Ha. unfold mean, float_mean in *.
  rewrite !List.length_map, Hn in *. auto.
Qed.


Lemma length_epoch_preds T :
  Forall (fun py : list Q * list Q =>
            List.length (fst py) = List.length (snd py)) T ->
  List.length (epoch_preds T) = total_examples T /\
  List.length (epoch_targets T) = total_examples T.
Proof.
  unfold epoch_preds, epoch_targets, total_examples.
  induction 1 as [| py T Hpy _ [IH1 IH2]]; cbn [List.flat_map List.map list_sum].
  - split; reflexivity.
  - rewrite !List.length_app, List.length_map, IH1, IH2, Hpy. split; reflexivity.
Qed.

(** X3: the recall and the F1 a step returns are the scores of the
    whole pass: of the targets of all its batches, in order, against
    the rounded predictions of all its batches, one per example. *)
Theorem scores_are_of_the_whole_pass (s : step) (dl : dataloader)
        (w w' : world) (m : metrics) :
  run_step s dl w = (w', inr m) ->
  recall_score (epoch_targets (step_trace s dl w))
               (epoch_preds (step_trace s dl w)) = inr (m_recall m) /\
  f1_score (epoch_targets (step_trace s dl w))
           (epoch_preds (step_trace s dl w)) = inr (m_f1 m) /\
  List.length (epoch_targets (step_trace s dl w))
  = total_examples (step_trace s dl w) /\
  List.length (epoch_preds (step_trace s dl w))
  = total_examples (step_trace s dl w).
Proof.
  intros Hrun.
  destruct (run_step_inr s dl w w' m Hrun)
    as (a & _ & _ & _ & _ & Hp & Ht & Hr & Hf).
  rewrite Hp, Ht in Hr, Hf.
  split; [exact Hr |]. split; [exact Hf |].
  assert (Hshape : Forall (fun py : list Q * list Q =>
                             List.length (fst py) = List.length (snd py))
                          (step_trace s dl w)).
  { destruct s; apply pass_trace_shape. }
  destruct (length_epoch_preds _ Hshape) as [H1 H2]. split; assumption.
Qed.

Lemma train_batch_same_mode a b w :
  training (fst (train_batch a b w)) = training w.
Proof.
  unfold train_batch, bind, get_buffers, model_call, forward, lift, ret,
    optimizer_zero_grad, loss_backward, optimizer_step, modify.
  cbn [params buffers training grads opt_state sink stdout].
  destruct (opt_step _ _ _) as [o p'].
  destruct (py_div _ _) as [e | q]; reflexivity.
Qed.

Lemma test_batch_same_mode a b w :
  training (fst (test_batch a b w)) = training w.
Proof.
  unfold test_batch, bind, model_call, forward, lift, ret.
  destruct (py_div _ _) as [e | q]; reflexivity.
Qed.

Lemma step_mode body t dl w :
  (forall a b w, training (fst (body a b w)) = training w) ->
  training (fst (bind (for_batches body dl accum0) (finish dl)
                      (in_mode t w))) = t.
Proof.
  intros Hbody.
  pose proof (for_batches_preserves
                (fun w w' => training w' = training w) body
                (fun w => eq_refl)
                (fun w1 w2 w3 H12 H23 => eq_trans H23 H12)
                Hbody dl accum0 (in_mode t w)) as H.
  unfold bind.
  destruct (for_batches body dl accum0 (in_mode t w)) as [w1 [e | a]];
    cbn [fst] in *.
  - exact H.
  - rewrite finish_same_world. exact H.
Qed.

(** X4: whether it returns or raises, [train_step] leaves the model
    in training mode and [test_step] leaves it in evaluation
    mode. *)
Theorem steps_set_the_mode (dl : dataloader) (w : world) :
  training (fst (train_step dl w)) = true /\
  training (fst (test_step dl w)) = false.
Proof.
  split.
  - exact (step_mode train_batch true dl w train_batch_same_mode).
  - exact (step_mode test_batch false dl w test_batch_same_mode).
Qed.

(** X5: neither step prints anything or calls the writer, whether
    it returns or raises. *)
Theorem steps_are_silent (s : step) (dl : dataloader) (w : world) :
  stdout (fst (run_step s dl w)) = stdout w /\
  sink (fst (run_step s dl w)) = sink w.
Proof.
  destruct s; cbn [run_step].
  - destruct (train_step_same_output dl w) as [Hs Ho]. auto.
  - destruct (test_step_same_output dl w) as [Hs Ho]. auto.
Qed.



Lemma test_batch_reads_model a b w1 w2 :
  same_model w1 w2 -> training w1 = training w2 ->
  snd (test_batch a b w1) = snd (test_batch a b w2) /\
  same_model (fst (test_batch a b w1)) (fst (test_batch a b w2)) /\
  training (fst (test_batch a b w1)) = training (fst (test_batch a b w2)).
Proof.
  intros [Hp Hb] Ht.
  unfold test_batch, bind, model_call, forward, lift, ret, same_model.
  rewrite Hp, Hb, Ht.
  destruct (py_div _ _) as [e | q]; cbn [fst snd params buffers training];
    auto.
Qed.

Lemma for_test_batches_reads_model dl : forall a w1 w2,
  same_model w1 w2 -> training w1 = training w2 ->
  snd (for_batches test_batch dl a w1) = snd (for_batches test_batch dl a w2) /\
  same_model (fst (for_batches test_batch dl a w1))
             (fst (for_batches test_batch dl a w2)).
Proof.
  induction dl as [| b dl IH]; intros a w1 w2 Hm Ht; cbn [for_batches].
  - cbn. auto.
  - unfold bind.
    destruct (test_batch_reads_model a b w1 w2 Hm Ht) as (Hr & Hm' & Ht').
    destruct (test_batch a b w1) as [w1' [e1 | a1]],
             (test_batch a b w2) as [w2' [e2 | a2]];
      cbn [fst snd] in *; try discriminate.
    + auto.
    + inversion Hr; subst a2. apply IH; assumption.
Qed.

(** X7: what [test_step] returns or raises, and the parameters and
    buffers it leaves, depend on the parameters and the buffers of
    the model only: not on its mode before the call, the stored
    gradients, the state of the optimizer or what was printed. *)
Theorem test_step_reads_the_model_only (dl : dataloader) (w1 w2 : world) :
  same_model w1 w2 ->
  snd (test_step dl w1) = snd (test_step dl w2) /\
  same_model (fst (test_step dl w1)) (fst (test_step dl w2)).
Proof.
  intros Hm.
  unfold test_step, bind, set_mode, modify.
  fold (in_mode false w1). fold (in_mode false w2).
  destruct (for_test_batches_reads_model dl accum0
              (in_mode false w1) (in_mode false w2) Hm eq_refl) as [Hr Hm'].
  destruct (for_batches test_batch dl accum0 (in_mode false w1))
    as [w1' [e1 | a1]],
           (for_batches test_batch dl accum0 (in_mode false w2))
    as [w2' [e2 | a2]]; cbn [fst snd] in *; try discriminate.
  - inversion Hr. auto.
  - inversion Hr; subst a2.
    rewrite !finish_same_world. split; [| exact Hm'].
    unfold finish, bind, lift, ret.
    destruct (recall_score _ _); [reflexivity |].
    destruct (f1_score _ _); [reflexivity |].
    destruct (py_div_float (sum_loss a1) _); [reflexivity |].
    destruct (py_div (sum_acc a1) _); reflexivity.
Qed.

(** *** Further properties of [train] *)

Lemma float_lt_false_le y b :
  float_lt y b = false -> is_nan y = false -> is_nan b = false ->
  float_le b y = true.
Proof.
  destruct y, b; cbn; try congruence.
  rewrite Qltb_ge, Qle_bool_iff. auto.
Qed.

Lemma float_lt_true_le y b : float_lt y b = true -> float_le y b = true.
Proof.
  destruct y, b; cbn; try congruence.
  rewrite Qltb_lt, Qle_bool_iff. apply Qlt_le_weak.
Qed.

Lemma float_le_refl y : is_nan y = false -> float_le y y = true.
Proof.
  destruct y; cbn; try congruence. intros _. apply Qle_bool_iff, Qle_refl.
Qed.

Lemma float_le_trans x y z :
  float_le x y = true -> float_le y z = true -> float_le x z = true.
Proof.
  destruct x, y, z; cbn; try congruence.
  rewrite !Qle_bool_iff. apply Qle_trans.
Qed.

Lemma fold_rule_min L :
  let best := fst (fold_left rule L (PosInf, 0%Z)) in
  (best = PosInf \/ In best L) /\
  is_nan best = false /\
  Forall (fun y => is_nan y = true \/ float_le best y = true) L.
Proof.
  induction L as [| y L IH] using rev_ind.
  - cbn. auto.
  - rewrite fold_rule_snoc.
    destruct (fold_left rule L (PosInf, 0%Z)) as [best c].
    unfold rule. cbn [fst snd] in *. destruct IH as (Hin & Hnan & Hall).
    destruct (float_lt y best) eqn:E; cbn [fst].
    + pose proof (float_lt_not_nan _ _ E) as Hy.
      split; [right; apply in_or_app; right; left; reflexivity |].
      split; [exact Hy |].
      apply Forall_app. split.
      * eapply List.Forall_impl; [| exact Hall].
        intros x [Hx | Hx]; [left; exact Hx | right].
        eapply float_le_trans; [apply float_lt_true_le; exact E | exact Hx].
      * constructor; [right; apply float_le_refl; exact Hy | constructor].
    + split; [destruct Hin as [Hin | Hin];
              [left; exact Hin | right; apply in_or_app; left; exact Hin] |].
      split; [exact Hnan |].
      apply Forall_app. split; [exact Hall |].
      constructor; [| constructor].
      destruct (is_nan y) eqn:Hy; [left; reflexivity | right].
      apply float_lt_false_le; assumption.
Qed.

(** X8: when the loop of [train] ends, [best_loss] is the least of
    [float('inf')] and the evaluation losses of the epochs it ran
    that are numbers: it is [float('inf')] or an entry of the
    series test_loss, it is not [nan], and it is at most every entry
    that is not [nan]. *)
Theorem best_loss_is_the_minimum
        tdl edl writer example_input patience epochs w w' s :
  for_epochs tdl edl writer example_input patience (py_range epochs)
             loop_state0 w = (w', inr s) ->
  let L := series (results s) "test_loss" in
  (best_loss s = PosInf \/ In (best_loss s) L) /\
  is_nan (best_loss s) = false /\
  Forall (fun y => is_nan y = true \/ float_le (best_loss s) y = true) L.
Proof.
  intros Hrun. unfold py_range in Hrun.
  destruct (for_epochs_run tdl edl writer example_input patience
              _ _ _ _ _ _ _ state_of_start Hrun) as (h & [Hres Hst] & _).
  cbn [app] in *.
  destruct (series_results_of h) as (_ & _ & _ & _ & HL & _).
  rewrite Hres, HL.
  pose proof (fold_rule_min (eval_losses h)) as Hmin.
  cbn zeta in Hmin. rewrite <- Hst in Hmin. exact Hmin.
Qed.

Lemma stale_le_length L : (stale L <= List.length L)%nat.
Proof. unfold stale. lia. Qed.

(** X9: a patience above the number of epochs switches early
    stopping off: a run that returns has executed all its epochs and
    has not printed the early-stopping message. *)
Theorem large_patience_never_stops
        tdl edl epochs writer example_input patience w w' res :
  (epochs < patience)%Z ->
  train tdl edl epochs writer example_input patience w = (w', inr res) ->
  early_stopped w w' = false /\
  epochs_run w w' = Z.to_nat epochs.
Proof.
  intros Hlt Hrun.
  destruct (train_observed _ _ _ _ _ _ _ _ _ Hrun)
    as (h & _ & Hn & Hex & Hmax & _ & _ & Hfull & _).
  assert (Hno : early_stopped w w' = false).
  { rewrite Hex. unfold exhausted.
    destruct (0 <? List.length (eval_losses h))%nat eqn:E0; [| reflexivity].
    cbn [andb]. apply Z.leb_gt.
    pose proof (stale_le_length (eval_losses h)) as Hs.
    assert (Hlen : List.length (eval_losses h) = List.length h)
      by (unfold eval_losses; apply List.length_map).
    apply Nat.ltb_lt in E0. rewrite Hlen in Hs, E0. lia. }
  split; [exact Hno |]. rewrite Hn. apply Hfull. exact Hno.
Qed.

(** X10: what a run that returns has printed is one line per epoch,
    numbered from 1 and carrying the eight values stored for that
    epoch in the results, followed, when early stopping fired, by
    one message that gives the number of epochs executed. *)
Theorem printed_lines_match_results
        tdl edl epochs writer example_input patience w w' res :
  train tdl edl epochs writer example_input patience w = (w', inr res) ->
  printed w w' =
    List.map (fun i => EpochLine (Z.of_nat i + 1)
                                 (train_metrics res i) (test_metrics res i))
             (seq 0 (epochs_run w w'))
    ++ (if early_stopped w w'
        then [EarlyStopLine (Z.of_nat (epochs_run w w'))] else []).
Proof.
  intros Hrun.
  destruct (train_observed _ _ _ _ _ _ _ _ _ Hrun)
    as (h & -> & Hn & _ & _ & Hout & _).
  rewrite Hout, Hn, epoch_lines_results. reflexivity.
Qed.

Lemma closes_epoch_logs writer example_input : forall h a,
  List.length (List.filter is_close (epoch_logs writer example_input a h))
  = if logs writer example_input then List.length h else 0%nat.
Proof.
  induction h as [| e h IH]; intros a; cbn [epoch_logs List.length].
  - destruct (logs writer example_input); reflexivity.
  - rewrite List.filter_app, List.length_app, IH.
    unfold epoch_log, log_events, logs.
    destruct writer, example_input as [x |]; try reflexivity.
    destruct e as [[[[a1 b1] c1] d1] [[[a2 b2] c2] d2]]. reflexivity.
Qed.

(** X11: the writer is closed once in every epoch that reaches the
    logging, not once at the end of the run: the number of calls of
    [close] is the number of logged epochs when a writer and an
    example input were passed, and 0 otherwise. *)
Theorem writer_is_closed_every_logged_epoch
        tdl edl epochs writer example_input patience w w' res :
  train tdl edl epochs writer example_input patience w = (w', inr res) ->
  List.length (List.filter is_close (emitted w w'))
  = if logs writer example_input then epochs_logged w w' else 0%nat.
Proof.
  intros Hrun.
  destruct (train_observed _ _ _ _ _ _ _ _ _ Hrun)
    as (h & _ & Hn & _ & _ & _ & Hsink & _).
  rewrite Hsink, closes_epoch_logs, logged_prefix.
  unfold epochs_logged. rewrite Hn.
  destruct (logs writer example_input); [| reflexivity].
  apply firstn_length_le. destruct (early_stopped w w'); lia.
Qed.

(** X12: with [epochs <= 0] the loop body never runs: [train]
    returns the dictionary of the eight empty series and leaves the
    model, the optimizer, the writer and the output as they were,
    whatever the dataloaders. *)
Theorem no_epoch_returns_empty_series
        tdl edl epochs writer example_input patience w :
  (epochs <= 0)%Z ->
  train tdl edl epochs writer example_input patience w = (w, inr results0) /\
  dom results0 = result_keys /\
  (forall key, key ∈ result_keys -> results0 !! key = Some []).
Proof.
  intros He. split; [| split].
  - unfold train, py_range.
    replace (Z.to_nat epochs) with 0%nat by lia. reflexivity.
  - exact (dom_results_of []).
  - intros key Hk. unfold result_keys in Hk.
    set_unfold in Hk. destruct_or!; subst key; reflexivity.
Qed.

Lemma emit_all_inl es : forall w w' e,
  emit_all es w = (w', inl e) ->
  writer_failed w' e /\ stdout w' = stdout w.
Proof.
  induction es as [| ev es IH]; intros w w' e Hrun; cbn [emit_all] in Hrun.
  - unfold ret in Hrun. discriminate.
  - apply bind_inl in Hrun as [Hev | (w1 & u & Hev & Hrun)].
    + unfold emit in Hev.
      destruct (writer_raises (sink w) ev) as [x |] eqn:E;
        inversion Hev; subst.
      split; [exists ev; exact E | reflexivity].
    + apply emit_inr in Hev as (_ & _ & Ho).
      destruct (IH _ _ _ Hrun) as [Hf Ho']. split; [exact Hf | congruence].
Qed.

Lemma logging_inl writer example_input epoch tm em w w' e :
  logging writer example_input epoch tm em w = (w', inl e) ->
  logs writer example_input = true /\
  writer_failed w' e /\ stdout w' = stdout w.
Proof.
  unfold logging, logs.
  destruct writer, example_input as [x |];
    try (unfold ret; discriminate).
  intros H. apply emit_all_inl in H. tauto.
Qed.

Lemma epoch_body_fail tdl edl writer example_input patience a h s w w' e :
  state_of h s ->
  epoch_body tdl edl writer example_input patience (Z.of_nat a) s w
  = (w', inl e) ->
  (step_failed tdl edl w w' e /\ stdout w' = stdout w) \/
  (logs writer example_input = true /\ writer_failed w' e /\
   exists e0, stdout w' = stdout w ++ epoch_lines a [e0]).
Proof.
  intros [Hres _] H. unfold epoch_body in H.
  pose proof (train_step_same_output tdl w) as [_ Ho1].
  apply bind_inl in H as [H | (w1 & tm & Ht & H)].
  { left. rewrite H in Ho1. split; [left; exact H | exact Ho1]. }
  rewrite Ht in Ho1. cbn [fst] in Ho1.
  pose proof (test_step_same_output edl w1) as [_ Ho2].
  apply bind_inl in H as [H | (w2 & em & He & H)].
  { left. rewrite H in Ho2. cbn [fst] in Ho2.
    split; [right; eauto | congruence]. }
  rewrite He in Ho2. cbn [fst] in Ho2. cbn zeta in H.
  apply bind_inl in H as [H | (w3 & [] & Hp & H)];
    [unfold print, modify in H; discriminate |].
  unfold print, modify in Hp. inversion Hp; subst w3; clear Hp.
  apply bind_inl in H as [H | (w4 & r & Ha & H)].
  { rewrite Hres, append_all_results_of in H. discriminate. }
  rewrite Hres, append_all_results_of in Ha.
  inversion Ha; subst w4 r; clear Ha.
  destruct (early_stopping _ _ _) as [best counter].
  destruct (patience <=? counter)%Z.
  - apply bind_inl in H as [H | (w5 & [] & _ & H)];
      unfold print, modify, ret in H; discriminate.
  - apply bind_inl in H as [H | (w5 & [] & _ & H)];
      [| unfold ret in H; discriminate].
    apply logging_inl in H as (Hlogs & Hf & Ho). cbn [stdout] in Ho.
    right. split; [exact Hlogs |]. split; [exact Hf |].
    exists (as_floats tm, as_floats em). cbn [epoch_lines fst snd].
    congruence.
Qed.

Lemma for_epochs_fail tdl edl writer example_input patience k :
  forall a h s w w' e,
    state_of h s ->
    for_epochs tdl edl writer example_input patience
               (List.map Z.of_nat (seq a k)) s w = (w', inl e) ->
    exists h',
      stdout w' = stdout w ++ epoch_lines a h' /\
      (((exists wk, step_failed tdl edl wk w' e) /\
        (List.length h' < k)%nat) \/
       (logs writer example_input = true /\ writer_failed w' e /\
        (0 < List.length h' <= k)%nat)).
Proof.
  induction k as [| k IH]; intros a h s w w' e Hst Hrun.
  - cbn in Hrun. unfold ret in Hrun. discriminate.
  - cbn [seq List.map for_epochs] in Hrun.
    apply bind_inl in Hrun as [Hbody | (w1 & [c s1] & Hbody & Hrun)].
    + destruct (epoch_body_fail _ _ _ _ _ _ _ _ _ _ _ Hst Hbody)
        as [[Hf Ho] | (Hlogs & Hf & e0 & Ho)].
      * exists []. cbn [epoch_lines List.length]. rewrite app_nil_r.
        split; [exact Ho |]. left. split; [eauto | lia].
      * exists [e0]. split; [exact Ho |]. right.
        cbn [List.length]. repeat split; auto; lia.
    + destruct (epoch_body_run tdl edl writer example_input patience
                  a h s w w1 c s1 Hst Hbody) as (e0 & Hst1 & Hc & Hout & _).
      cbn [fst snd] in Hrun.
      destruct (patience <=? patience_counter s1)%Z; subst c.
      * unfold ret in Hrun. discriminate.
      * destruct (IH (S a) (h ++ [e0]) s1 w1 w' e Hst1 Hrun)
          as (h' & Ho & Hcase).
        exists (e0 :: h'). split.
        -- rewrite Ho, Hout. cbn [epoch_lines].
           rewrite <- app_assoc. reflexivity.
        -- cbn [List.length].
           destruct Hcase as [[Hf Hlen] | (Hlogs & Hf & Hlen)];
             [left | right]; repeat split; auto; lia.
Qed.

(** X13: [train] catches nothing and adds no failure of its own.
    When it raises, no early-stopping message was printed, and the
    exception is either the one a call of [train_step] or
    [test_step] raised, the world being as that call left it and
    the failing epoch not printed, or the one a method of the
    writer raised in the logging of an epoch that was printed, a
    writer and an example input having been passed. *)
Theorem failing_step_aborts_train
        tdl edl epochs writer example_input patience w w' e :
  train tdl edl epochs writer example_input patience w = (w', inl e) ->
  early_stopped w w' = false /\
  (((exists wk, step_failed tdl edl wk w' e) /\
    (epochs_run w w' < Z.to_nat epochs)%nat) \/
   (logs writer example_input = true /\ writer_failed w' e /\
    (0 < epochs_run w w' <= Z.to_nat epochs)%nat)).
Proof.
  intros Hrun. unfold train in Hrun.
  apply bind_inl in Hrun as [Hrun | (w1 & s & _ & Hret)];
    [| unfold ret in Hret; discriminate].
  unfold py_range in Hrun.
  destruct (for_epochs_fail tdl edl writer example_input patience
              _ _ _ _ _ _ _ state_of_start Hrun)
    as (h' & Hout & Hcase).
  assert (Hn : epochs_run w w' = List.length h').
  { unfold epochs_run, printed.
    rewrite <- (app_nil_r (epoch_lines 0 h')) in Hout.
    rewrite Hout, drop_app_length, filter_epoch_lines.
    rewrite List.length_app, length_epoch_lines. cbn. lia. }
  split.
  - unfold early_stopped, printed.
    rewrite <- (app_nil_r (epoch_lines 0 h')) in Hout.
    rewrite Hout, drop_app_length, existsb_epoch_lines. reflexivity.
  - rewrite Hn. exact Hcase.
Qed.

Lemma emit_all_mode es : forall w,
  training (fst (emit_all es w)) = training w.
Proof.
  induction es as [| e es IH]; intros w; cbn [emit_all].
  - reflexivity.
  - unfold bind, emit.
    destruct (writer_raises (sink w) e); [reflexivity |].
    rewrite IH. reflexivity.
Qed.

Lemma logging_mode writer example_input epoch tm em w :
  training (fst (logging writer example_input epoch tm em w)) = training w.
Proof.
  unfold logging. destruct writer, example_input; try reflexivity.
  apply emit_all_mode.
Qed.

Lemma append_same_world key x r w w' r' :
  append key x r w = (w', inr r') -> w' = w.
Proof.
  unfold append. destruct (r !! key); unfold ret, lift; intros H;
    inversion H; reflexivity.
Qed.

Lemma append_all_same_world tm em r w w' r' :
  append_all tm em r w = (w', inr r') -> w' = w.
Proof.
  destruct tm as [[[tl ta] tr] tf], em as [[[el ea] er] ef].
  unfold append_all. intros H.
  repeat (apply bind_inr in H as (? & ? & Ha & H);
          apply append_same_world in Ha; subst).
  apply append_same_world in H. exact H.
Qed.

Lemma epoch_body_mode tdl edl writer example_input patience epoch s w w' cs :
  epoch_body tdl edl writer example_input patience epoch s w
  = (w', inr cs) ->
  training w' = false.
Proof.
  intros H. unfold epoch_body in H.
  apply bind_inr in H as (w1 & tm & _ & H).
  apply bind_inr in H as (w2 & em & Htest & H).
  apply bind_inr in H as (w3 & [] & Hprint & H).
  apply bind_inr in H as (w4 & r & Happ & H).
  pose proof (step_mode test_batch false edl w1 test_batch_same_mode) as Hm.
  change (bind (for_batches test_batch edl accum0) (finish edl)
               (in_mode false w1)) with (test_step edl w1) in Hm.
  rewrite Htest in Hm. cbn [fst] in Hm.
  unfold print, modify in Hprint. inversion Hprint; subst w3; clear Hprint.
  apply append_all_same_world in Happ. subst w4.
  destruct (early_stopping _ _ _) as [best counter].
  destruct (patience <=? counter)%Z.
  - apply bind_inr in H as (w5 & [] & Hprint & Hret).
    unfold print, modify in Hprint. inversion Hprint; subst w5.
    apply ret_inr in Hret as [-> _]. exact Hm.
  - apply bind_inr in H as (w5 & [] & Hlog & Hret).
    apply ret_inr in Hret as [-> _].
    pose proof (logging_mode writer example_input epoch
                  (as_floats tm) (as_floats em)
                  (mkWorld (params w2) (buffers w2) (training w2) (grads w2)
                           (opt_state w2) (sink w2)
                           (stdout w2 ++ [EpochLine (epoch + 1) (as_floats tm)
                                                    (as_floats em)])))
      as Hl.
    rewrite Hlog in Hl. cbn [fst training] in Hl. congruence.
Qed.

Lemma for_epochs_mode tdl edl writer example_input patience l :
  forall s w w' s',
    for_epochs tdl edl writer example_input patience l s w = (w', inr s') ->
    w' = w \/ training w' = false.
Proof.
  induction l as [| epoch l IH]; intros s w w' s' H; cbn [for_epochs] in H.
  - apply ret_inr in H as [-> _]. left. reflexivity.
  - right. apply bind_inr in H as (w1 & [c s1] & Hbody & H).
    apply epoch_body_mode in Hbody. cbn [fst snd] in H. destruct c.
    + destruct (IH _ _ _ _ H) as [-> | Hm]; assumption.
    + apply ret_inr in H as [-> _]. exact Hbody.
  Qed.

(** X14: a run of [train] that returns after at least one epoch
    leaves the model in evaluation mode, since [test_step] is the
    last to set the mode in every epoch. *)
Theorem train_leaves_the_model_in_eval_mode
        tdl edl epochs writer example_input patience w w' res :
  train tdl edl epochs writer example_input patience w = (w', inr res) ->
  (0 < epochs_run w w')%nat ->
  training w' = false.
Proof.
  intros Hrun Hpos. unfold train in Hrun.
  apply bind_inr in Hrun as (w1 & s & Hloop & Hret).
  apply ret_inr in Hret as [-> _].
  destruct (for_epochs_mode _ _ _ _ _ _ _ _ _ _ Hloop) as [-> | Hm];
    [| exact Hm].
  unfold epochs_run, printed in Hpos. rewrite drop_all in Hpos.
  cbn in Hpos. lia.
Qed.







End Engine.

(** ** The weighted scores lie between 0 and 1 *)

Lemma ratio_range n d : 0 <= n <= d -> 0 <= Sklearn.ratio n d <= 1.
Proof.
  intros [H0 H1]. unfold Sklearn.ratio.
  destruct (Qeq_bool d 0) eqn:E.
  - split; discriminate.
  - apply Qeq_bool_neq in E.
    assert (Hpos : 0 < d).
    { destruct (Qlt_le_dec 0 d) as [H | H]; [exact H |].
      exfalso. apply E. lra. }
    split.
    + apply Qle_shift_div_l; [exact Hpos |]. rewrite Qmult_0_l. exact H0.
    + apply Qle_shift_div_r; [exact Hpos |]. rewrite Qmult_1_l. exact H1.
Qed.

Lemma filter_combine_le_l {A B} (f : A -> bool) (g : A * B -> bool) :
  (forall x, g x = true -> f (fst x) = true) ->
  forall (l : list A) (l' : list B),
    (List.length (List.filter g (combine l l'))
     <= List.length (List.filter f l))%nat.
Proof.
  intros H. induction l as [| a l IH]; intros [| b l'];
    cbn [combine List.filter List.length]; try lia.
  specialize (IH l').
  destruct (g (a, b)) eqn:E.
  - apply H in E. cbn [fst] in E. rewrite E. cbn [List.length]. lia.
  - destruct (f a); cbn [List.length]; lia.
Qed.

Lemma filter_combine_le_r {A B} (f : B -> bool) (g : A * B -> bool) :
  (forall x, g x = true -> f (snd x) = true) ->
  forall (l : list A) (l' : list B),
    (List.length (List.filter g (combine l l'))
     <= List.length (List.filter f l'))%nat.
Proof.
  intros H. induction l as [| a l IH]; intros [| b l'];
    cbn [combine List.filter List.length]; try lia.
  specialize (IH l').
  destruct (g (a, b)) eqn:E.
  - apply H in E. cbn [snd] in E. rewrite E. cbn [List.length]. lia.
  - destruct (f b); cbn [List.length]; lia.
Qed.

Lemma true_pos_le_true c y_true y_pred :
  (Sklearn.true_pos c y_true y_pred <= Sklearn.count c y_true)%Z.
Proof.
  unfold Sklearn.true_pos, Sklearn.count. apply Nat2Z.inj_le.
  apply filter_combine_le_l. intros x Hx.
  apply andb_true_iff in Hx as [Hx _]. exact Hx.
Qed.

Lemma true_pos_le_pred c y_true y_pred :
  (Sklearn.true_pos c y_true y_pred <= Sklearn.count c y_pred)%Z.
Proof.
  unfold Sklearn.true_pos, Sklearn.count. apply Nat2Z.inj_le.
  apply filter_combine_le_r. intros x Hx.
  apply andb_true_iff in Hx as [_ Hx]. exact Hx.
Qed.

Lemma true_pos_nonneg c y_true y_pred :
  (0 <= Sklearn.true_pos c y_true y_pred)%Z.
Proof. unfold Sklearn.true_pos. lia. Qed.

Lemma class_recall_range y_true y_pred c :
  0 <= Sklearn.class_recall y_true y_pred c <= 1.
Proof.
  unfold Sklearn.class_recall. apply ratio_range.
  change 0 with (inject_Z 0). rewrite <- !Zle_Qle.
  split; [apply true_pos_nonneg | apply true_pos_le_true].
Qed.

Lemma class_precision_range y_true y_pred c :
  0 <= Sklearn.class_precision y_true y_pred c <= 1.
Proof.
  unfold Sklearn.class_precision. apply ratio_range.
  change 0 with (inject_Z 0). rewrite <- !Zle_Qle.
  split; [apply true_pos_nonneg | apply true_pos_le_pred].
Qed.

Lemma class_f1_range y_true y_pred c :
  0 <= Sklearn.class_f1 y_true y_pred c <= 1.
Proof.
  unfold Sklearn.class_f1.
  pose proof (class_precision_range y_true y_pred c) as [Hp0 Hp1].
  pose proof (class_recall_range y_true y_pred c) as [Hr0 Hr1].
  cbn zeta. apply ratio_range. split; nra.
Qed.

Lemma weighted_sum_range (support score : Q -> Q) (labels : list Q) :
  (forall c, 0 <= support c) ->
  (forall c, 0 <= score c <= 1) ->
  0 <= Qsum (List.map (fun c => support c * score c) labels)
    <= Qsum (List.map support labels).
Proof.
  intros Hs Hc. induction labels as [| c labels [IH0 IH1]].
  - cbn. split; discriminate.
  - cbn [List.map Qsum fold_right].
    fold (Qsum (List.map (fun c => support c * score c) labels)).
    fold (Qsum (List.map support labels)).
    specialize (Hs c). destruct (Hc c) as [H0 H1]. split; nra.
Qed.

Lemma weighted_range score y_true y_pred :
  (forall c, 0 <= score c <= 1) ->
  0 <= Sklearn.weighted score y_true y_pred <= 1.
Proof.
  intros Hc. unfold Sklearn.weighted. apply ratio_range.
  apply weighted_sum_range; [| exact Hc].
  intros c. change 0 with (inject_Z 0). rewrite <- Zle_Qle.
  unfold Sklearn.count. lia.
Qed.

Lemma recall_score_range y_true y_pred r :
  Sklearn.recall_score y_true y_pred = inr r -> 0 <= r <= 1.
Proof.
  unfold Sklearn.recall_score.
  destruct (List.length y_true =? List.length y_pred)%nat; [| discriminate].
  intros H. inversion H. apply weighted_range. apply class_recall_range.
Qed.

Lemma f1_score_range y_true y_pred f :
  Sklearn.f1_score y_true y_pred = inr f -> 0 <= f <= 1.
Proof.
  unfold Sklearn.f1_score.
  destruct (List.length y_true =? List.length y_pred)%nat; [| discriminate].
  intros H. inversion H. apply weighted_range. apply class_f1_range.
Qed.

(** C7, for what the code guarantees: when a step returns, with the
    weighted scores of scikit-learn, its accuracy, recall and F1 lie
    between 0 and 1, and its loss is at least 0 provided the loss
    function returned no negative value on the batches of the pass. *)
Theorem step_metrics_in_range
        {Input Params Buffers Grad OptState : Type}
        (predict : Params -> Buffers -> bool -> list Input -> Input -> Q)
        (update_buffers : Params -> Buffers -> bool -> list Input -> Buffers)
        (loss_fn : list Q -> list Q -> pyfloat)
        (backward : Params -> Buffers -> list Input -> list Q -> Grad -> Grad)
        (grad_zero : Grad)
        (opt_step : OptState -> Params -> Grad -> OptState * Params)
        (s : step) (dl : dataloader)
        (w w' : @world Input Params Buffers Grad OptState) (m : metrics) :
  run_step predict update_buffers loss_fn backward grad_zero opt_step
           Sklearn.recall_score Sklearn.f1_score s dl w = (w', inr m) ->
  0 <= m_acc m <= 1 /\
  0 <= m_recall m <= 1 /\
  0 <= m_f1 m <= 1 /\
  (Forall (fun py => float_le (Fin 0) (loss_fn (fst py) (snd py)) = true)
          (step_trace predict update_buffers loss_fn backward grad_zero
                      opt_step s dl w) ->
   float_le (Fin 0) (m_loss m) = true).
Proof.
  intros Hrun.
  destruct (step_accuracy_loss_range _ _ _ _ _ _ _ _ _ _ _ _ _ Hrun)
    as [Hacc Hl].
  destruct (run_step_inr _ _ _ _ _ _ _ _ _ _ _ _ _ Hrun)
    as (a & _ & _ & _ & _ & _ & _ & Hr & Hf).
  split; [exact Hacc |].
  split; [eapply recall_score_range; exact Hr |].
  split; [eapply f1_score_range; exact Hf |].
  exact Hl.
Qed.

(** ** Runs of the scripted model *)

(** A computation that returned is the pair of its final world and of
    what it returned. *)
Lemma returned_eq {W A : Type} (r : W * (exn + A)) (d : A) :
  (match snd r with inr _ => true | inl _ => false end) = true ->
  r = (fst r, inr (match snd r with inr x => x | inl _ => d end)).
Proof.
  destruct r as [w [e | a]]; cbn; [discriminate | reflexivity].
Qed.

(** [f] on the scripted model, with scikit-learn's scores where [f]
    takes them. *)
Local Abbreviation scripted f script :=
  (f (Scripted.predict script) Scripted.update_buffers Scripted.loss_fn
     Scripted.backward tt Scripted.opt_step
     Sklearn.recall_score Sklearn.f1_score).

Local Abbreviation scripted_model f script :=
  (f (Scripted.predict script) Scripted.update_buffers Scripted.loss_fn
     Scripted.backward tt Scripted.opt_step).

(** A writer whose methods never raise. *)
Local Abbreviation never_raises :=
  (fun (_ : list (@sink_event Q)) (_ : @sink_event Q) => @None exn).

(** [f] on the scripted model, scikit-learn's scores and this writer. *)
Local Abbreviation scripted_run f script :=
  (f (Scripted.predict script) Scripted.update_buffers Scripted.loss_fn
     Scripted.backward tt Scripted.opt_step
     Sklearn.recall_score Sklearn.f1_score never_raises).

(** The world before the first update, with nothing printed. *)
Local Abbreviation world0 :=
  (@mkWorld Q nat unit unit unit 0%nat tt false tt tt [] []).

(** What a computation returned, or a default. *)
Local Abbreviation returned r d :=
  (match snd r with inr x => x | inl _ => d end).

(** A dataloader with the single example (0, 1) in its single batch:
    the loss of a step is [script[params]]. *)
Local Abbreviation one_example := ([[(0, 1)]] : list (list (Q * Q))).

(** Ten epochs at most, patience 3, and the evaluation losses
    1.0, 0.9, 0.95, 0.95, 0.95. *)
Local Abbreviation scenario_stop :=
  (scripted_run train [2; 1; 9 # 10; 95 # 100; 95 # 100; 95 # 100]
            one_example one_example 10%Z true (Some [0]) 3%Z world0).

(** Three epochs at most, patience 5, and evaluation losses that
    decrease. *)
Local Abbreviation scenario_full :=
  (scripted_run train [5; 4; 3; 2; 1] one_example one_example 3%Z false None 5%Z
            world0).

(** A loss function that returns [nan] on every batch, with at most
    ten epochs and a patience of 2. *)
Local Abbreviation nan_loss f :=
  (f (Scripted.predict [1]) Scripted.update_buffers
     (fun _ _ : list Q => NaN) Scripted.backward tt Scripted.opt_step
     Sklearn.recall_score Sklearn.f1_score never_raises).

Local Abbreviation scenario_nan :=
  (nan_loss train one_example one_example 10%Z true (Some [0]) 2%Z world0).

Lemma early_stopping_epoch_count_witness :
  (scenario_stop = (fst scenario_stop, inr (returned scenario_stop ∅)) /\
   series (returned scenario_stop ∅) "test_loss"
   = [Fin 1; Fin (9 # 10); Fin (95 # 100); Fin (95 # 100); Fin (95 # 100)] /\
   last_improvement (series (returned scenario_stop ∅) "test_loss") = 2%nat /\
   early_stopped world0 (fst scenario_stop) = true /\
   epochs_run world0 (fst scenario_stop) = 5%nat /\
   Z.of_nat (epochs_run world0 (fst scenario_stop))
   = (Z.of_nat (last_improvement
                  (series (returned scenario_stop ∅) "test_loss")) + 3)%Z) /\
  (scenario_full = (fst scenario_full, inr (returned scenario_full ∅)) /\
   series (returned scenario_full ∅) "test_loss" = [Fin 4; Fin 3; Fin 2] /\
   early_stopped world0 (fst scenario_full) = false /\
   epochs_run world0 (fst scenario_full) = 3%nat /\
   epochs_run world0 (fst scenario_full) = Z.to_nat 3) /\
  (scenario_nan = (fst scenario_nan, inr (returned scenario_nan ∅)) /\
   series (returned scenario_nan ∅) "test_loss" = [NaN; NaN] /\
   last_improvement (series (returned scenario_nan ∅) "test_loss") = 0%nat /\
   early_stopped world0 (fst scenario_nan) = true /\
   epochs_run world0 (fst scenario_nan) = 2%nat /\
   Z.of_nat (epochs_run world0 (fst scenario_nan))
   = (Z.of_nat (last_improvement
                  (series (returned scenario_nan ∅) "test_loss")) + 2)%Z).
Proof.
  assert (H3 : (1 <= 3)%Z) by lia.
  assert (H2 : (1 <= 2)%Z) by lia.
  assert (Rstop : (match snd scenario_stop with
                   | inr _ => true | inl _ => false end) = true)
    by (vm_compute; reflexivity).
  assert (Rfull : (match snd scenario_full with
                   | inr _ => true | inl _ => false end) = true)
    by (vm_compute; reflexivity).
  assert (Rnan : (match snd scenario_nan with
                  | inr _ => true | inl _ => false end) = true)
    by (vm_compute; reflexivity).
  pose proof (returned_eq scenario_stop) as Hstop.
  specialize (Hstop ∅ Rstop).
  pose proof (returned_eq scenario_full) as Hfull.
  specialize (Hfull ∅ Rfull).
  pose proof (returned_eq scenario_nan) as Hnan.
  specialize (Hnan ∅ Rnan).
  assert (Estop : exhausted 3 (series (returned scenario_stop ∅) "test_loss")
                  = true)
    by (vm_compute; reflexivity).
  assert (Efull : exhausted 5 (series (returned scenario_full ∅) "test_loss")
                  = false)
    by (vm_compute; reflexivity).
  assert (Enan : exhausted 2 (series (returned scenario_nan ∅) "test_loss")
                 = true)
    by (vm_compute; reflexivity).
  pose proof (scripted_run early_stopping_epoch_count
                       [2; 1; 9 # 10; 95 # 100; 95 # 100; 95 # 100]
                       one_example one_example 10%Z true (Some [0]) 3%Z world0)
    as Tstop.
  specialize (Tstop (fst scenario_stop)).
  specialize (Tstop (returned scenario_stop ∅)).
  specialize (Tstop Hstop).
  pose proof (scripted_run early_stopping_epoch_count [5; 4; 3; 2; 1]
                       one_example one_example 3%Z false None 5%Z world0)
    as Tfull.
  specialize (Tfull (fst scenario_full)).
  specialize (Tfull (returned scenario_full ∅)).
  specialize (Tfull Hfull).
  pose proof (nan_loss early_stopping_epoch_count
                       one_example one_example 10%Z true (Some [0]) 2%Z world0)
    as Tnan.
  specialize (Tnan (fst scenario_nan)).
  specialize (Tnan (returned scenario_nan ∅)).
  specialize (Tnan Hnan).
  cbv zeta in Tstop, Tfull, Tnan.
  destruct Tstop as (_ & _ & _ & _ & Tstop & _).
  specialize (Tstop Estop). destruct Tstop as [_ Tstop].
  specialize (Tstop H3).
  destruct Tfull as (_ & _ & _ & _ & _ & Tfull).
  specialize (Tfull Efull).
  destruct Tnan as (_ & _ & _ & _ & Tnan & _).
  specialize (Tnan Enan). destruct Tnan as [_ Tnan].
  specialize (Tnan H2).
  split; [| split].
  - split; [exact Hstop |].
    split; [vm_compute; reflexivity |].
    split; [vm_compute; reflexivity |].
    split; [vm_compute; reflexivity |].
    split; [vm_compute; reflexivity |].
    exact Tstop.
  - split; [exact Hfull |].
    split; [vm_compute; reflexivity |].
    split; [vm_compute; reflexivity |].
    split; [vm_compute; reflexivity |].
    exact Tfull.
  - split; [exact Hnan |].
    split; [vm_compute; reflexivity |].
    split; [vm_compute; reflexivity |].
    split; [vm_compute; reflexivity |].
    split; [vm_compute; reflexivity |].
    exact Tnan.
Defined.

(** The same collaborators with a patience of -1. *)
Local Abbreviation scenario_negative :=
  (scripted_run train [2; 1; 9 # 10; 95 # 100; 95 # 100; 95 # 100]
            one_example one_example 10%Z true (Some [0]) (-1)%Z world0).

(** C1 as stated fails for a negative patience: the evaluation loss
    has not improved for at least -1 epochs in a row, the run stops
    after 1 epoch, and the epoch of the last improvement plus the
    patience is 0. *)
Lemma early_stopping_negative_patience :
  scenario_negative
  = (fst scenario_negative, inr (returned scenario_negative ∅)) /\
  exhausted (-1) (series (returned scenario_negative ∅) "test_loss") = true /\
  epochs_run world0 (fst scenario_negative) = 1%nat /\
  last_improvement (series (returned scenario_negative ∅) "test_loss")
  = 1%nat /\
  Z.of_nat (epochs_run world0 (fst scenario_negative))
  <> (Z.of_nat (last_improvement
                  (series (returned scenario_negative ∅) "test_loss"))
      + -1)%Z.
Proof.
  assert (R : (match snd scenario_negative with
               | inr _ => true | inl _ => false end) = true)
    by (vm_compute; reflexivity).
  pose proof (returned_eq scenario_negative) as H.
  specialize (H ∅ R).
  split; [exact H |].
  split; [vm_compute; reflexivity |].
  split; [vm_compute; reflexivity |].
  split; [vm_compute; reflexivity |].
  vm_compute. discriminate.
Qed.

(** The loop of the first scenario, down to its locals. *)
Local Abbreviation scenario_loop :=
  (scripted_run for_epochs [2; 1; 9 # 10; 95 # 100; 95 # 100; 95 # 100]
            one_example one_example true (Some [0]) 3%Z (py_range 10)
            loop_state0 world0).

(** The loop of the run whose losses are all [nan]. *)
Local Abbreviation scenario_nan_loop :=
  (nan_loss for_epochs one_example one_example true (Some [0]) 2%Z
            (py_range 10) loop_state0 world0).

Lemma early_stopping_state_invariant_witness :
  (scenario_loop
   = (fst scenario_loop, inr (returned scenario_loop loop_state0)) /\
   best_loss (returned scenario_loop loop_state0) = Fin (9 # 10) /\
   patience_counter (returned scenario_loop loop_state0) = 3%Z /\
   stale (series (results (returned scenario_loop loop_state0)) "test_loss")
   = 3%nat /\
   patience_counter (returned scenario_loop loop_state0)
   = Z.of_nat
       (stale (series (results (returned scenario_loop loop_state0))
                      "test_loss"))) /\
  (scenario_nan_loop
   = (fst scenario_nan_loop, inr (returned scenario_nan_loop loop_state0)) /\
   series (results (returned scenario_nan_loop loop_state0)) "test_loss"
   = [NaN; NaN] /\
   best_loss (returned scenario_nan_loop loop_state0) = PosInf /\
   patience_counter (returned scenario_nan_loop loop_state0) = 2%Z /\
   patience_counter (returned scenario_nan_loop loop_state0)
   = Z.of_nat
       (stale (series (results (returned scenario_nan_loop loop_state0))
                      "test_loss"))).
Proof.
  assert (R : (match snd scenario_loop with
               | inr _ => true | inl _ => false end) = true)
    by (vm_compute; reflexivity).
  assert (Rnan : (match snd scenario_nan_loop with
                  | inr _ => true | inl _ => false end) = true)
    by (vm_compute; reflexivity).
  pose proof (returned_eq scenario_loop) as H.
  specialize (H loop_state0 R).
  pose proof (returned_eq scenario_nan_loop) as Hnan.
  specialize (Hnan loop_state0 Rnan).
  pose proof (scripted_run early_stopping_state_invariant
                       [2; 1; 9 # 10; 95 # 100; 95 # 100; 95 # 100]
                       one_example one_example true (Some [0]) 3%Z 10%Z world0)
    as T.
  specialize (T (fst scenario_loop)).
  specialize (T (returned scenario_loop loop_state0)).
  specialize (T H).
  pose proof (nan_loss early_stopping_state_invariant
                       one_example one_example true (Some [0]) 2%Z 10%Z world0)
    as Tnan.
  specialize (Tnan (fst scenario_nan_loop)).
  specialize (Tnan (returned scenario_nan_loop loop_state0)).
  specialize (Tnan Hnan).
  cbv zeta in T, Tnan.
  destruct T as (_ & T & _).
  destruct Tnan as (_ & Tnan & _).
  split.
  - split; [exact H |].
    split; [vm_compute; reflexivity |].
    split; [vm_compute; reflexivity |].
    split; [vm_compute; reflexivity |].
    exact T.
  - split; [exact Hnan |].
    split; [vm_compute; reflexivity |].
    split; [vm_compute; reflexivity |].
    split; [vm_compute; reflexivity |].
    exact Tnan.
Defined.

Lemma early_stop_epoch_is_not_logged_witness :
  scenario_stop = (fst scenario_stop, inr (returned scenario_stop ∅)) /\
  early_stopped world0 (fst scenario_stop) = true /\
  epochs_run world0 (fst scenario_stop) = 5%nat /\
  List.length (series (returned scenario_stop ∅) "test_f1") = 5%nat /\
  List.length (emitted world0 (fst scenario_stop)) = 24%nat /\
  (forall tag d,
     ~ In (AddScalars tag d
                      (Z.of_nat (epochs_run world0 (fst scenario_stop)) - 1))
          (emitted world0 (fst scenario_stop))).
Proof.
  assert (R : (match snd scenario_stop with
               | inr _ => true | inl _ => false end) = true)
    by (vm_compute; reflexivity).
  pose proof (returned_eq scenario_stop) as H.
  specialize (H ∅ R).
  assert (E : early_stopped world0 (fst scenario_stop) = true)
    by (vm_compute; reflexivity).
  pose proof (scripted_run early_stop_epoch_is_not_logged
                       [2; 1; 9 # 10; 95 # 100; 95 # 100; 95 # 100]
                       one_example one_example 10%Z true (Some [0]) 3%Z world0)
    as T.
  specialize (T (fst scenario_stop)).
  specialize (T (returned scenario_stop ∅)).
  specialize (T H).
  specialize (T E).
  cbv zeta in T.
  destruct T as (_ & _ & _ & _ & T).
  split; [exact H |].
  split; [exact E |].
  split; [vm_compute; reflexivity |].
  split; [vm_compute; reflexivity |].
  split; [vm_compute; reflexivity |].
  exact T.
Defined.

(** Two batches, of one and of three examples: the model, which adds
    1 to the input 0, is right on the example of the first batch and
    wrong on those of the second. *)
Local Abbreviation two_batches :=
  ([[(0, 1)]; [(0, 0); (0, 0); (0, 0)]] : list (list (Q * Q))).

Local Abbreviation eval_two_batches :=
  (scripted run_step [1] EvalStep two_batches world0).

Local Abbreviation train_two_batches :=
  (scripted run_step [1; 1] TrainStep two_batches world0).

Local Abbreviation no_metrics := ((Fin 0, 0, 0, 0) : metrics).

(** The two steps on the two batches, with a model that adds 1 to the
    inputs of the first batch it sees and 3 to those of the second. *)
Local Abbreviation train_means :=
  (scripted run_step [1; 3] TrainStep two_batches world0).

Local Abbreviation train_means_trace :=
  (scripted_model step_trace [1; 3] TrainStep two_batches world0).

Local Abbreviation eval_means_trace :=
  (scripted_model step_trace [1] EvalStep two_batches world0).

Lemma sklearn_scores_return (y_true y_pred : list Q) :
  List.length y_true = List.length y_pred ->
  (exists r, Sklearn.recall_score y_true y_pred = inr r) /\
  (exists f, Sklearn.f1_score y_true y_pred = inr f).
Proof.
  intros H. unfold Sklearn.recall_score, Sklearn.f1_score.
  rewrite H, Nat.eqb_refl. eauto.
Qed.

Lemma step_returns_batch_means_witness :
  two_batches <> [] /\
  ~ In [] two_batches /\
  ((exists r, Sklearn.recall_score (epoch_targets train_means_trace)
                                   (epoch_preds train_means_trace) = inr r) /\
   (exists f, Sklearn.f1_score (epoch_targets train_means_trace)
                               (epoch_preds train_means_trace) = inr f) /\
   List.map trace_accuracy train_means_trace = [1 # 1; 0 # 3] /\
   List.map (fun py => Scripted.loss_fn (fst py) (snd py)) train_means_trace
   = [Fin 1; Fin 3] /\
   float_eq (m_loss (returned train_means no_metrics)) (Fin 2) /\
   m_acc (returned train_means no_metrics) == 1 # 2 /\
   ~ m_acc (returned train_means no_metrics) == 1 # 4 /\
   exists w' m,
     train_means = (w', inr m) /\
     List.length train_means_trace = List.length two_batches /\
     float_eq (m_loss m)
              (float_div_int
                 (float_sum (List.map (fun py => Scripted.loss_fn (fst py)
                                                                  (snd py))
                                      train_means_trace))
                 (Z.of_nat (List.length two_batches))) /\
     m_acc m == Qsum (List.map trace_accuracy train_means_trace)
                / inject_Z (Z.of_nat (List.length two_batches))) /\
  ((exists r, Sklearn.recall_score (epoch_targets eval_means_trace)
                                   (epoch_preds eval_means_trace) = inr r) /\
   (exists f, Sklearn.f1_score (epoch_targets eval_means_trace)
                               (epoch_preds eval_means_trace) = inr f) /\
   float_eq (m_loss (returned eval_two_batches no_metrics)) (Fin 1) /\
   m_acc (returned eval_two_batches no_metrics) == 1 # 2 /\
   exists w' m,
     eval_two_batches = (w', inr m) /\
     List.length eval_means_trace = List.length two_batches /\
     float_eq (m_loss m)
              (float_div_int
                 (float_sum (List.map (fun py => Scripted.loss_fn (fst py)
                                                                  (snd py))
                                      eval_means_trace))
                 (Z.of_nat (List.length two_batches))) /\
     m_acc m == Qsum (List.map trace_accuracy eval_means_trace)
                / inject_Z (Z.of_nat (List.length two_batches))).
Proof.
  assert (Hne : two_batches <> []) by discriminate.
  assert (Hno : ~ In [] two_batches)
    by (intros [H | [H | H]]; [discriminate | discriminate | exact H]).
  assert (Lt : List.length (epoch_targets train_means_trace)
               = List.length (epoch_preds train_means_trace))
    by (vm_compute; reflexivity).
  assert (Le : List.length (epoch_targets eval_means_trace)
               = List.length (epoch_preds eval_means_trace))
    by (vm_compute; reflexivity).
  pose proof (sklearn_scores_return (epoch_targets train_means_trace)
                                    (epoch_preds train_means_trace)) as St.
  specialize (St Lt). destruct St as [Rt Ft].
  pose proof (sklearn_scores_return (epoch_targets eval_means_trace)
                                    (epoch_preds eval_means_trace)) as Se.
  specialize (Se Le). destruct Se as [Re Fe].
  pose proof (scripted step_returns_batch_means [1; 3] TrainStep two_batches
                       world0) as Tt.
  cbv zeta in Tt.
  specialize (Tt Hne). specialize (Tt Hno).
  specialize (Tt Rt). specialize (Tt Ft).
  pose proof (scripted step_returns_batch_means [1] EvalStep two_batches
                       world0) as Te.
  cbv zeta in Te.
  specialize (Te Hne). specialize (Te Hno).
  specialize (Te Re). specialize (Te Fe).
  split; [exact Hne |]. split; [exact Hno |]. split.
  - split; [exact Rt |]. split; [exact Ft |].
    split; [vm_compute; reflexivity |].
    split; [vm_compute; reflexivity |].
    split; [vm_compute; reflexivity |].
    split; [vm_compute; reflexivity |].
    split; [vm_compute; discriminate |].
    exact Tt.
  - split; [exact Re |]. split; [exact Fe |].
    split; [vm_compute; reflexivity |].
    split; [vm_compute; reflexivity |].
    exact Te.
Defined.

Lemma results_have_one_entry_per_epoch_witness :
  scenario_stop = (fst scenario_stop, inr (returned scenario_stop ∅)) /\
  epochs_run world0 (fst scenario_stop) = 5%nat /\
  dom (returned scenario_stop ∅) = result_keys /\
  size (returned scenario_stop ∅) = 8%nat /\
  (forall key, key ∈ result_keys ->
     exists l, returned scenario_stop ∅ !! key = Some l /\
               List.length l = epochs_run world0 (fst scenario_stop)).
Proof.
  assert (R : (match snd scenario_stop with
               | inr _ => true | inl _ => false end) = true)
    by (vm_compute; reflexivity).
  pose proof (returned_eq scenario_stop) as H.
  specialize (H ∅ R).
  pose proof (scripted_run results_have_one_entry_per_epoch
                       [2; 1; 9 # 10; 95 # 100; 95 # 100; 95 # 100]
                       one_example one_example 10%Z true (Some [0]) 3%Z world0)
    as T.
  specialize (T (fst scenario_stop)).
  specialize (T (returned scenario_stop ∅)).
  specialize (T H).
  split; [exact H |].
  split; [vm_compute; reflexivity |].
  exact T.
Defined.

Lemma step_metrics_in_range_witness :
  train_two_batches
  = (fst train_two_batches, inr (returned train_two_batches no_metrics)) /\
  Forall (fun py => float_le (Fin 0) (Scripted.loss_fn (fst py) (snd py))
                    = true)
         (scripted_model step_trace [1; 1] TrainStep two_batches world0) /\
  returned train_two_batches no_metrics
  = (Fin (2 # 2), 3 # 6, 3 # 12, 8 # 80) /\
  0 <= m_acc (returned train_two_batches no_metrics) <= 1 /\
  0 <= m_recall (returned train_two_batches no_metrics) <= 1 /\
  0 <= m_f1 (returned train_two_batches no_metrics) <= 1 /\
  float_le (Fin 0) (m_loss (returned train_two_batches no_metrics)) = true.
Proof.
  assert (R : (match snd train_two_batches with
               | inr _ => true | inl _ => false end) = true)
    by (vm_compute; reflexivity).
  pose proof (returned_eq train_two_batches) as H.
  specialize (H no_metrics R).
  assert (L : Forall (fun py => float_le (Fin 0)
                                         (Scripted.loss_fn (fst py) (snd py))
                                = true)
                     (scripted_model step_trace [1; 1] TrainStep two_batches
                                     world0))
    by (vm_compute; repeat constructor).
  pose proof (scripted_model step_metrics_in_range [1; 1] TrainStep
                             two_batches world0) as T.
  specialize (T (fst train_two_batches)).
  specialize (T (returned train_two_batches no_metrics)).
  specialize (T H).
  destruct T as (Ta & Tr & Tf & Tl).
  specialize (Tl L).
  split; [exact H |].
  split; [exact L |].
  split; [vm_compute; reflexivity |].
  split; [exact Ta |].
  split; [exact Tr |].
  split; [exact Tf |].
  exact Tl.
Defined.

(** A model whose first prediction, which the scripted loss returns,
    is -1. *)
Local Abbreviation eval_negative :=
  (scripted run_step [-1] EvalStep one_example world0).

Local Abbreviation train_negative :=
  (scripted run_step [-1] TrainStep one_example world0).

(** C7 as stated fails for the loss: nothing in the steps keeps the
    value of the loss function from being negative, and the mean of
    negative losses is returned as it is. *)
Lemma negative_loss_is_returned :
  (eval_negative
   = (fst eval_negative, inr (returned eval_negative no_metrics)) /\
   float_lt (m_loss (returned eval_negative no_metrics)) (Fin 0) = true) /\
  (train_negative
   = (fst train_negative, inr (returned train_negative no_metrics)) /\
   float_lt (m_loss (returned train_negative no_metrics)) (Fin 0) = true).
Proof.
  assert (Re : (match snd eval_negative with
                | inr _ => true | inl _ => false end) = true)
    by (vm_compute; reflexivity).
  assert (Rt : (match snd train_negative with
                | inr _ => true | inl _ => false end) = true)
    by (vm_compute; reflexivity).
  pose proof (returned_eq eval_negative) as He.
  specialize (He no_metrics Re).
  pose proof (returned_eq train_negative) as Ht.
  specialize (Ht no_metrics Rt).
  split.
  - split; [exact He |]. vm_compute. reflexivity.
  - split; [exact Ht |]. vm_compute. reflexivity.
Qed.

Lemma logging_iff_writer_and_example_witness :
  (scenario_stop = (fst scenario_stop, inr (returned scenario_stop ∅)) /\
   epochs_run world0 (fst scenario_stop) = 5%nat /\
   epochs_logged world0 (fst scenario_stop) = 4%nat /\
   List.length (emitted world0 (fst scenario_stop)) = 24%nat) /\
  (scenario_full = (fst scenario_full, inr (returned scenario_full ∅)) /\
   epochs_logged world0 (fst scenario_full) = 3%nat /\
   List.length (emitted world0 (fst scenario_full)) = 0%nat).
Proof.
  assert (Rstop : (match snd scenario_stop with
                   | inr _ => true | inl _ => false end) = true)
    by (vm_compute; reflexivity).
  assert (Rfull : (match snd scenario_full with
                   | inr _ => true | inl _ => false end) = true)
    by (vm_compute; reflexivity).
  pose proof (returned_eq scenario_stop) as Hstop.
  specialize (Hstop ∅ Rstop).
  pose proof (returned_eq scenario_full) as Hfull.
  specialize (Hfull ∅ Rfull).
  pose proof (scripted_run logging_iff_writer_and_example
                       [2; 1; 9 # 10; 95 # 100; 95 # 100; 95 # 100]
                       one_example one_example 10%Z true (Some [0]) 3%Z world0)
    as Tstop.
  specialize (Tstop (fst scenario_stop)).
  specialize (Tstop (returned scenario_stop ∅)).
  specialize (Tstop Hstop).
  pose proof (scripted_run logging_iff_writer_and_example [5; 4; 3; 2; 1]
                       one_example one_example 3%Z false None 5%Z world0)
    as Tfull.
  specialize (Tfull (fst scenario_full)).
  specialize (Tfull (returned scenario_full ∅)).
  specialize (Tfull Hfull).
  split.
  - split; [exact Hstop |].
    split; [vm_compute; reflexivity |].
    split; [vm_compute; reflexivity |].
    refine (eq_trans (f_equal (@List.length (@sink_event Q)) Tstop) _).
    vm_compute. reflexivity.
  - split; [exact Hfull |].
    split; [vm_compute; reflexivity |].
    refine (eq_trans (f_equal (@List.length (@sink_event Q)) Tfull) _).
    vm_compute. reflexivity.
Defined.

(** The two steps of the first epoch of the scripted model. *)
Local Abbreviation first_train :=
  (scripted train_step [2; 1; 9 # 10; 95 # 100; 95 # 100; 95 # 100]
            one_example world0).

Local Abbreviation first_test :=
  (test_step (Scripted.predict [2; 1; 9 # 10; 95 # 100; 95 # 100; 95 # 100])
             Scripted.update_buffers Scripted.loss_fn
             Sklearn.recall_score Sklearn.f1_score
             one_example (fst first_train)).

Lemma nonpositive_patience_stops_after_one_epoch_witness :
  (-2 <= 0)%Z /\
  (1 <= 10)%Z /\
  first_train = (fst first_train, inr (returned first_train no_metrics)) /\
  first_test = (fst first_test, inr (returned first_test no_metrics)) /\
  exists w',
    scripted_run train [2; 1; 9 # 10; 95 # 100; 95 # 100; 95 # 100]
             one_example one_example 10%Z true (Some [0]) (-2)%Z world0
    = (w', inr (results_of [(as_floats (returned first_train no_metrics),
                             as_floats (returned first_test no_metrics))])) /\
    epochs_run world0 w' = 1%nat /\
    early_stopped world0 w' = true /\
    printed world0 w'
    = [EpochLine 1 (as_floats (returned first_train no_metrics))
                 (as_floats (returned first_test no_metrics));
       EarlyStopLine 1] /\
    emitted world0 w' = [].
Proof.
  assert (Hp : (-2 <= 0)%Z) by lia.
  assert (He : (1 <= 10)%Z) by lia.
  assert (Rt : (match snd first_train with
                | inr _ => true | inl _ => false end) = true)
    by (vm_compute; reflexivity).
  assert (Re : (match snd first_test with
                | inr _ => true | inl _ => false end) = true)
    by (vm_compute; reflexivity).
  pose proof (returned_eq first_train) as Ht.
  specialize (Ht no_metrics Rt).
  pose proof (returned_eq first_test) as Hv.
  specialize (Hv no_metrics Re).
  pose proof (scripted_run nonpositive_patience_stops_after_one_epoch
                       [2; 1; 9 # 10; 95 # 100; 95 # 100; 95 # 100]
                       one_example one_example 10%Z true (Some [0]) (-2)%Z
                       world0) as T.
  specialize (T (fst first_train)).
  specialize (T (fst first_test)).
  specialize (T (returned first_train no_metrics)).
  specialize (T (returned first_test no_metrics)).
  specialize (T Hp).
  specialize (T He).
  specialize (T Ht).
  specialize (T Hv).
  split; [exact Hp |].
  split; [exact He |].
  split; [exact Ht |].
  split; [exact Hv |].
  exact T.
Defined.

(** ** Further properties on concrete runs *)

Lemma outcome_eq {W A : Type} (r : W * (exn + A)) (x : exn + A) :
  snd r = x -> r = (fst r, x).
Proof.
  destruct r as [w y]. cbn. intros ->. reflexivity.
Qed.

(** A dataloader whose second batch has no example. *)
Local Abbreviation with_empty_batch :=
  ([[(0, 1)]; []] : list (list (Q * Q))).


Lemma scores_are_of_the_whole_pass_witness :
  (eval_two_batches
   = (fst eval_two_batches, inr (returned eval_two_batches no_metrics)) /\
   epoch_targets eval_means_trace = [1; 0; 0; 0] /\
   epoch_preds eval_means_trace = [1; 1; 1; 1] /\
   Sklearn.recall_score (epoch_targets eval_means_trace)
                        (epoch_preds eval_means_trace)
   = inr (m_recall (returned eval_two_batches no_metrics)) /\
   Sklearn.f1_score (epoch_targets eval_means_trace)
                    (epoch_preds eval_means_trace)
   = inr (m_f1 (returned eval_two_batches no_metrics)) /\
   total_examples eval_means_trace = 4%nat) /\
  (train_means = (fst train_means, inr (returned train_means no_metrics)) /\
   epoch_targets train_means_trace = [1; 0; 0; 0] /\
   epoch_preds train_means_trace = [1; 3; 3; 3] /\
   Sklearn.recall_score (epoch_targets train_means_trace)
                        (epoch_preds train_means_trace)
   = inr (m_recall (returned train_means no_metrics)) /\
   Sklearn.f1_score (epoch_targets train_means_trace)
                    (epoch_preds train_means_trace)
   = inr (m_f1 (returned train_means no_metrics)) /\
   total_examples train_means_trace = 4%nat).
Proof.
  assert (Re : (match snd eval_two_batches with
                | inr _ => true | inl _ => false end) = true)
    by (vm_compute; reflexivity).
  assert (Rt : (match snd train_means with
                | inr _ => true | inl _ => false end) = true)
    by (vm_compute; reflexivity).
  pose proof (returned_eq eval_two_batches) as He.
  specialize (He no_metrics Re).
  pose proof (returned_eq train_means) as Ht.
  specialize (Ht no_metrics Rt).
  pose proof (scripted scores_are_of_the_whole_pass [1] EvalStep two_batches
                       world0) as Te.
  specialize (Te (fst eval_two_batches)).
  specialize (Te (returned eval_two_batches no_metrics)).
  specialize (Te He).
  destruct Te as (Te1 & Te2 & _).
  pose proof (scripted scores_are_of_the_whole_pass [1; 3] TrainStep
                       two_batches world0) as Tt.
  specialize (Tt (fst train_means)).
  specialize (Tt (returned train_means no_metrics)).
  specialize (Tt Ht).
  destruct Tt as (Tt1 & Tt2 & _).
  split.
  - split; [exact He |].
    split; [vm_compute; reflexivity |].
    split; [vm_compute; reflexivity |].
    split; [exact Te1 |].
    split; [exact Te2 |].
    vm_compute. reflexivity.
  - split; [exact Ht |].
    split; [vm_compute; reflexivity |].
    split; [vm_compute; reflexivity |].
    split; [exact Tt1 |].
    split; [exact Tt2 |].
    vm_compute. reflexivity.
Defined.

(** A model whose gradients are counted: [backward] adds one to the
    stored gradient and the optimizer adds the gradient to the
    parameters. *)
Local Abbreviation counting f :=
  (f (Scripted.predict [1; 1; 1; 1; 1]) Scripted.update_buffers
     Scripted.loss_fn
     (fun (p : nat) (b : unit) (X y : list Q) (g : nat) => S g) 0%nat
     (fun (o : unit) (p g : nat) => (o, (p + g)%nat))
     Sklearn.recall_score Sklearn.f1_score).

Local Abbreviation world_with_grads :=
  (@mkWorld Q nat unit nat unit 0%nat tt false 3%nat tt [] []).


(** A world with the model of [world0], in training mode and with a
    line printed. *)
Local Abbreviation world_printed :=
  (@mkWorld Q nat unit unit unit 0%nat tt true tt tt [] [EarlyStopLine 1]).

Lemma test_step_reads_the_model_only_witness :
  same_model world0 world_printed /\
  snd (test_step (Scripted.predict [1]) Scripted.update_buffers
                 Scripted.loss_fn Sklearn.recall_score Sklearn.f1_score
                 two_batches world0)
  = snd (test_step (Scripted.predict [1]) Scripted.update_buffers
                   Scripted.loss_fn Sklearn.recall_score Sklearn.f1_score
                   two_batches world_printed).
Proof.
  assert (Hm : same_model world0 world_printed) by (split; reflexivity).
  pose proof (test_step_reads_the_model_only
                (Scripted.predict [1]) Scripted.update_buffers
                Scripted.loss_fn Sklearn.recall_score Sklearn.f1_score
                two_batches world0 world_printed) as T.
  specialize (T Hm).
  destruct T as [T _].
  split; [exact Hm | exact T].
Defined.

Lemma best_loss_is_the_minimum_witness :
  (scenario_loop
   = (fst scenario_loop, inr (returned scenario_loop loop_state0)) /\
   best_loss (returned scenario_loop loop_state0) = Fin (9 # 10) /\
   series (results (returned scenario_loop loop_state0)) "test_loss"
   = [Fin 1; Fin (9 # 10); Fin (95 # 100); Fin (95 # 100); Fin (95 # 100)] /\
   Forall (fun y => is_nan y = true \/
                    float_le (best_loss (returned scenario_loop loop_state0)) y
                    = true)
          (series (results (returned scenario_loop loop_state0))
                  "test_loss")) /\
  (scenario_nan_loop
   = (fst scenario_nan_loop, inr (returned scenario_nan_loop loop_state0)) /\
   best_loss (returned scenario_nan_loop loop_state0) = PosInf /\
   series (results (returned scenario_nan_loop loop_state0)) "test_loss"
   = [NaN; NaN] /\
   Forall (fun y => is_nan y = true \/
                    float_le (best_loss (returned scenario_nan_loop
                                                  loop_state0)) y
                    = true)
          (series (results (returned scenario_nan_loop loop_state0))
                  "test_loss")).
Proof.
  assert (R : (match snd scenario_loop with
               | inr _ => true | inl _ => false end) = true)
    by (vm_compute; reflexivity).
  assert (Rnan : (match snd scenario_nan_loop with
                  | inr _ => true | inl _ => false end) = true)
    by (vm_compute; reflexivity).
  pose proof (returned_eq scenario_loop) as H.
  specialize (H loop_state0 R).
  pose proof (returned_eq scenario_nan_loop) as Hnan.
  specialize (Hnan loop_state0 Rnan).
  pose proof (scripted_run best_loss_is_the_minimum
                       [2; 1; 9 # 10; 95 # 100; 95 # 100; 95 # 100]
                       one_example one_example true (Some [0]) 3%Z 10%Z world0)
    as T.
  specialize (T (fst scenario_loop)).
  specialize (T (returned scenario_loop loop_state0)).
  specialize (T H).
  pose proof (nan_loss best_loss_is_the_minimum
                       one_example one_example true (Some [0]) 2%Z 10%Z world0)
    as Tnan.
  specialize (Tnan (fst scenario_nan_loop)).
  specialize (Tnan (returned scenario_nan_loop loop_state0)).
  specialize (Tnan Hnan).
  cbv zeta in T, Tnan.
  destruct T as (_ & _ & T).
  destruct Tnan as (_ & _ & Tnan).
  split.
  - split; [exact H |].
    split; [vm_compute; reflexivity |].
    split; [vm_compute; reflexivity |].
    exact T.
  - split; [exact Hnan |].
    split; [vm_compute; reflexivity |].
    split; [vm_compute; reflexivity |].
    exact Tnan.
Defined.

Lemma large_patience_never_stops_witness :
  (3 < 5)%Z /\
  scenario_full = (fst scenario_full, inr (returned scenario_full ∅)) /\
  early_stopped world0 (fst scenario_full) = false /\
  epochs_run world0 (fst scenario_full) = Z.to_nat 3.
Proof.
  assert (Hlt : (3 < 5)%Z) by lia.
  assert (R : (match snd scenario_full with
               | inr _ => true | inl _ => false end) = true)
    by (vm_compute; reflexivity).
  pose proof (returned_eq scenario_full) as H.
  specialize (H ∅ R).
  pose proof (scripted_run large_patience_never_stops [5; 4; 3; 2; 1]
                       one_example one_example 3%Z false None 5%Z world0)
    as T.
  specialize (T (fst scenario_full)).
  specialize (T (returned scenario_full ∅)).
  specialize (T Hlt).
  specialize (T H).
  split; [exact Hlt |].
  split; [exact H |].
  exact T.
Defined.

Lemma printed_lines_match_results_witness :
  scenario_stop = (fst scenario_stop, inr (returned scenario_stop ∅)) /\
  List.length (printed world0 (fst scenario_stop)) = 6%nat /\
  List.last (printed world0 (fst scenario_stop)) (EarlyStopLine 0)
  = EarlyStopLine 5 /\
  printed world0 (fst scenario_stop)
  = List.map (fun i : nat =>
                EpochLine (Z.of_nat i + 1)
                          (train_metrics (returned scenario_stop ∅) i)
                          (test_metrics (returned scenario_stop ∅) i))
             (seq 0 (epochs_run world0 (fst scenario_stop)))
    ++ (if early_stopped world0 (fst scenario_stop)
        then [EarlyStopLine (Z.of_nat (epochs_run world0 (fst scenario_stop)))]
        else []).
Proof.
  assert (R : (match snd scenario_stop with
               | inr _ => true | inl _ => false end) = true)
    by (vm_compute; reflexivity).
  pose proof (returned_eq scenario_stop) as H.
  specialize (H ∅ R).
  pose proof (scripted_run printed_lines_match_results
                       [2; 1; 9 # 10; 95 # 100; 95 # 100; 95 # 100]
                       one_example one_example 10%Z true (Some [0]) 3%Z world0)
    as T.
  specialize (T (fst scenario_stop)).
  specialize (T (returned scenario_stop ∅)).
  specialize (T H).
  split; [exact H |].
  split; [vm_compute; reflexivity |].
  split; [vm_compute; reflexivity |].
  exact T.
Defined.

Lemma writer_is_closed_every_logged_epoch_witness :
  scenario_stop = (fst scenario_stop, inr (returned scenario_stop ∅)) /\
  epochs_run world0 (fst scenario_stop) = 5%nat /\
  List.length (List.filter is_close (emitted world0 (fst scenario_stop)))
  = 4%nat /\
  List.length (List.filter is_close (emitted world0 (fst scenario_stop)))
  = if logs true (Some [0]) then epochs_logged world0 (fst scenario_stop)
    else 0%nat.
Proof.
  assert (R : (match snd scenario_stop with
               | inr _ => true | inl _ => false end) = true)
    by (vm_compute; reflexivity).
  pose proof (returned_eq scenario_stop) as H.
  specialize (H ∅ R).
  pose proof (scripted_run writer_is_closed_every_logged_epoch
                       [2; 1; 9 # 10; 95 # 100; 95 # 100; 95 # 100]
                       one_example one_example 10%Z true (Some [0]) 3%Z world0)
    as T.
  specialize (T (fst scenario_stop)).
  specialize (T (returned scenario_stop ∅)).
  specialize (T H).
  split; [exact H |].
  split; [vm_compute; reflexivity |].
  split; [vm_compute; reflexivity |].
  exact T.
Defined.

Lemma no_epoch_returns_empty_series_witness :
  (-1 <= 0)%Z /\
  scripted_run train [1] one_example one_example (-1)%Z true (Some [0]) 3%Z world0
  = (world0, inr results0).
Proof.
  assert (Hle : (-1 <= 0)%Z) by lia.
  pose proof (scripted_run no_epoch_returns_empty_series [1]
                       one_example one_example (-1)%Z true (Some [0]) 3%Z
                       world0) as T.
  specialize (T Hle).
  destruct T as [T _].
  split; [exact Hle | exact T].
Defined.

(** A run whose evaluation dataloader has a batch without examples:
    the first call of [test_step] divides by zero, after [train_step]
    has updated the parameters once. *)
Local Abbreviation scenario_fail :=
  (scripted_run train [2; 1] one_example with_empty_batch 10%Z true
                (Some [0]) 3%Z world0).

(** A writer whose [close] raises, and a run that logs to it. *)
Local Abbreviation close_raises :=
  (fun (_ : list (@sink_event Q)) (e : @sink_event Q) =>
     if is_close e then Some (OtherError "OSError") else None).

Local Abbreviation scenario_writer_fails :=
  (scripted train [5; 4; 3; 2; 1] close_raises one_example one_example 3%Z
            true (Some [0]) 5%Z world0).

Lemma failing_step_aborts_train_witness :
  (scenario_fail = (fst scenario_fail, inl ZeroDivisionError) /\
   params (fst scenario_fail) = 1%nat /\
   epochs_run world0 (fst scenario_fail) = 0%nat /\
   early_stopped world0 (fst scenario_fail) = false) /\
  (scenario_writer_fails
   = (fst scenario_writer_fails, inl (OtherError "OSError")) /\
   logs true (Some [0 : Q]) = true /\
   writer_failed close_raises (fst scenario_writer_fails)
                 (OtherError "OSError") /\
   epochs_run world0 (fst scenario_writer_fails) = 1%nat /\
   List.length (emitted world0 (fst scenario_writer_fails)) = 5%nat /\
   early_stopped world0 (fst scenario_writer_fails) = false).
Proof.
  assert (R : snd scenario_fail = inl ZeroDivisionError)
    by (vm_compute; reflexivity).
  pose proof (outcome_eq scenario_fail) as H.
  specialize (H (inl ZeroDivisionError) R).
  assert (Rw : snd scenario_writer_fails = inl (OtherError "OSError"))
    by (vm_compute; reflexivity).
  pose proof (outcome_eq scenario_writer_fails) as Hw.
  specialize (Hw (inl (OtherError "OSError")) Rw).
  pose proof (scripted_run failing_step_aborts_train [2; 1]
                       one_example with_empty_batch 10%Z true
                       (Some [0]) 3%Z world0) as T.
  specialize (T (fst scenario_fail)).
  specialize (T ZeroDivisionError).
  specialize (T H).
  destruct T as (T & _).
  pose proof (scripted failing_step_aborts_train [5; 4; 3; 2; 1] close_raises
                       one_example one_example 3%Z true (Some [0]) 5%Z world0)
    as Tw.
  specialize (Tw (fst scenario_writer_fails)).
  specialize (Tw (OtherError "OSError")).
  specialize (Tw Hw).
  destruct Tw as (Tw & _).
  split.
  - split; [exact H |].
    split; [vm_compute; reflexivity |].
    split; [vm_compute; reflexivity |].
    exact T.
  - split; [exact Hw |].
    split; [reflexivity |].
    split; [exists Close; vm_compute; reflexivity |].
    split; [vm_compute; reflexivity |].
    split; [vm_compute; reflexivity |].
    exact Tw.
Defined.

(** The world before the first update, in training mode. *)
Local Abbreviation world_training :=
  (@mkWorld Q nat unit unit unit 0%nat tt true tt tt [] []).

Local Abbreviation scenario_training :=
  (scripted_run train [5; 4; 3; 2; 1] one_example one_example 3%Z false None 5%Z
            world_training).

Lemma train_leaves_the_model_in_eval_mode_witness :
  scenario_training
  = (fst scenario_training, inr (returned scenario_training ∅)) /\
  (0 < epochs_run world_training (fst scenario_training))%nat /\
  training world_training = true /\
  training (fst scenario_training) = false.
Proof.
  assert (R : (match snd scenario_training with
               | inr _ => true | inl _ => false end) = true)
    by (vm_compute; reflexivity).
  pose proof (returned_eq scenario_training) as H.
  specialize (H ∅ R).
  assert (Hpos : (0 < epochs_run world_training (fst scenario_training))%nat)
    by (vm_compute; lia).
  pose proof (scripted_run train_leaves_the_model_in_eval_mode [5; 4; 3; 2; 1]
                       one_example one_example 3%Z false None 5%Z
                       world_training) as T.
  specialize (T (fst scenario_training)).
  specialize (T (returned scenario_training ∅)).
  specialize (T H).
  specialize (T Hpos).
  split; [exact H |].
  split; [exact Hpos |].
  split; [reflexivity | exact T].
Defined.

(** Two batches of two examples, of which the model gets one right. *)
Local Abbreviation equal_batches :=
  ([[(0, 1); (0, 0)]; [(0, 0); (0, 0)]] : list (list (Q * Q))).

Local Abbreviation eval_equal_batches :=
  (scripted run_step [1] EvalStep equal_batches world0).

Local Abbreviation eval_equal_trace :=
  (scripted_model step_trace [1] EvalStep equal_batches world0).

Local Abbreviation train_equal_batches :=
  (scripted run_step [1; 1] TrainStep equal_batches world0).

Local Abbreviation train_equal_trace :=
  (scripted_model step_trace [1; 1] TrainStep equal_batches world0).

